(** * playground.model.train: hyperparameter search, retraining and ensembling

    A shallow embedding of [src/playground/model/train.py] and the
    statements of its specification that can be settled on it.

    The file follows the source top-down:
    - [Py]      exceptions, results and the state-and-exception monad that
                stands for Python's control flow;
    - [Np]      [np.argmax], the one NumPy routine the selection logic
                relies on;
    - [Kt]      the part of KerasTuner's [HyperParameters] container and of
                the tuner's bookkeeping that the source calls;
    - [Keras]   the symbolic layer graph built by the functional API, with
                a per-example denotation over the reals;
    - the functions of [train.py] themselves: [get_hidden], [build_model],
      [train_model], [wrap_ensemble], [train];
    - the theorems.

    Numbers.  Metric values and hyperparameter bounds are finite floats;
    where only their order matters (argmax, trial ranking) they are
    embedded in [Q], which preserves it.  The denotation of a network is
    taken over [R]: rounding of the float32 kernels is not modelled. *)

From Stdlib Require Import ZArith QArith Reals Lra Lia List String.
From stdpp Require Import base option list gmap strings.
Import ListNotations.

#[local] Open Scope Z_scope.
#[local] Open Scope string_scope.
#[local] Open Scope list_scope.
#[local] Set Warnings "-register-all".

(* ===================================================================== *)
(** ** Python control flow *)
(* ===================================================================== *)

Module Py.

(** The exceptions that can travel through [train.py].  The first
    four are raised by the modelled code itself; [ExternalError] is
    whatever a library call (a fit, the search, a CSV read) may raise. *)
Inductive Exn : Type :=
| ValueError
| KeyError (key : string)
| TypeError
| IndexError
| ExternalError (code : nat).

Inductive result (A : Type) : Type :=
| Ok (a : A)
| Raise (e : Exn).
Arguments Ok {A} a.
Arguments Raise {A} e.

Definition is_ok {A} (r : result A) : bool :=
  match r with Ok _ => true | Raise _ => false end.

#[global] Instance result_ret : MRet result := fun _ a => Ok a.
#[global] Instance result_bind : MBind result :=
  fun _ _ f r => match r with Ok a => f a | Raise e => Raise e end.

(** A computation over a mutable state [S] that may raise.  The state
    reached when the exception is raised is kept, as in Python. *)
Definition M (S A : Type) : Type := S -> result A * S.

#[global] Instance M_ret {S} : MRet (M S) := fun _ a s => (Ok a, s).
#[global] Instance M_bind {S} : MBind (M S) :=
  fun _ _ f m s =>
    match m s with
    | (Ok a, s') => f a s'
    | (Raise e, s') => (Raise e, s')
    end.

Definition raise {S A} (e : Exn) : M S A := fun s => (Raise e, s).
Definition get {S} : M S S := fun s => (Ok s, s).
Definition put {S} (s : S) : M S unit := fun _ => (Ok tt, s).
Definition modify {S} (f : S -> S) : M S unit := fun s => (Ok tt, f s).
Definition lift {S A} (r : result A) : M S A := fun s => (r, s).

(** Run a computation on a component [T] of the state. *)
Definition zoom {S T A} (getter : S -> T) (setter : T -> S -> S)
           (m : M T A) : M S A :=
  fun s => match m (getter s) with (r, t) => (r, setter t s) end.

(** [for a in l: acc = body(a, acc)]. *)
Fixpoint for_each {S A B} (l : list A) (body : A -> B -> M S B) (acc : B)
  : M S B :=
  match l with
  | [] => mret acc
  | a :: l' => acc' ← body a acc; for_each l' body acc'
  end.

(** [range(n)]; empty when [n <= 0]. *)
Definition range (n : Z) : list Z := map Z.of_nat (seq 0 (Z.to_nat n)).

(** [(a,) = l]: unpacking into a one-element target. *)
Definition unpack1 {A} (l : list A) : result A :=
  match l with
  | [a] => Ok a
  | _ => Raise ValueError
  end.

(** [d[key]]. *)
Definition getitem {A} (d : gmap string A) (key : string) : result A :=
  match d !! key with
  | Some a => Ok a
  | None => Raise (KeyError key)
  end.

(** [try: body finally: handler] — the handler runs on both exits and the
    outcome of the body is passed on unchanged. *)
Definition finally {S A} (body : M S A) (handler : M S unit) : M S A :=
  fun s =>
    match body s with
    | (r, s') =>
        match handler s' with
        | (Ok _, s'') => (r, s'')
        | (Raise e, s'') => (Raise e, s'')
        end
    end.

End Py.
Import Py.

(* ===================================================================== *)
(** ** NumPy *)
(* ===================================================================== *)

Module Np.

(** The scan of [np.argmax] over a one-dimensional float array: the
    running maximum [mp] changes only when the next element is not
    [<= mp], so that among equal values the earliest index is kept.
    [i] is the index of the head of [ip].  The elements are finite floats,
    as the values of Keras's AUC metric are; the scan's special case for
    NaN does not arise and is left out. *)
Fixpoint argmax_loop (mp : Q) (max_ind i : nat) (ip : list Q) : nat :=
  match ip with
  | [] => max_ind
  | x :: ip' =>
      if negb (Qle_bool x mp)
      then argmax_loop x i (S i) ip'
      else argmax_loop mp max_ind (S i) ip'
  end.

(** [np.argmax(a)]; an empty sequence is a [ValueError]. *)
Definition argmax (a : list Q) : result nat :=
  match a with
  | [] => Raise ValueError
  | x :: a' => Ok (argmax_loop x 0 1 a')
  end.

End Np.

(* ===================================================================== *)
(** ** KerasTuner *)
(* ===================================================================== *)

Module Kt.

(** A hyperparameter value: Python [int], [float] or [str]. *)
Inductive Value : Type :=
| VInt (z : Z)
| VFloat (q : Q)
| VStr (s : string).

Inductive Sampling : Type := Linear | Log.

(** The declarations of [hp.Int], [hp.Float] and [hp.Choice], with the
    arguments a call site can pass. *)
Inductive HyperParameter : Type :=
| HInt (name : string) (min_value max_value : Z)
| HFloat (name : string) (min_value max_value : Q)
         (step : option Q) (sampling : Sampling)
| HChoice (name : string) (values : list Value).

Definition hp_name (d : HyperParameter) : string :=
  match d with
  | HInt n _ _ | HFloat n _ _ _ _ | HChoice n _ => n
  end.

(** The default of a declaration that names none: the lower bound of a
    range, the first entry of a choice. *)
Definition hp_default (d : HyperParameter) : result Value :=
  match d with
  | HInt _ lo _ => Ok (VInt lo)
  | HFloat _ lo _ _ _ => Ok (VFloat lo)
  | HChoice _ (v :: _) => Ok v
  | HChoice _ [] => Raise ValueError
  end.

(** The container: the declared space, in declaration order, and the
    dict of current values. *)
Record HyperParameters : Type := mkHP {
  space : list HyperParameter;
  values : gmap string Value;
}.

Definition empty : HyperParameters := mkHP [] ∅.

Definition exists_ (name : string) (hp : HyperParameters) : bool :=
  bool_decide (name ∈ map hp_name (space hp)).

(** [_register]: append the declaration; give the name its default
    unless a value is already there; return the value now stored. *)
Definition register (d : HyperParameter) : M HyperParameters Value :=
  fun hp =>
    let hp1 := mkHP (space hp ++ [d]) (values hp) in
    match values hp !! hp_name d with
    | Some v => (Ok v, hp1)
    | None =>
        match hp_default d with
        | Ok v => (Ok v, mkHP (space hp1) (<[hp_name d := v]> (values hp1)))
        | Raise e => (Raise e, hp1)
        end
    end.

(** [_retrieve]: a name already declared returns [values[name]]; a new
    one is registered. *)
Definition retrieve (d : HyperParameter) : M HyperParameters Value :=
  fun hp =>
    if exists_ (hp_name d) hp
    then match values hp !! hp_name d with
         | Some v => (Ok v, hp)
         | None => (Raise (KeyError (hp_name d)), hp)
         end
    else register d hp.

Definition Int (name : string) (min_value max_value : Z)
  : M HyperParameters Value :=
  retrieve (HInt name min_value max_value).

Definition Float (name : string) (min_value max_value : Q)
           (step : option Q) (sampling : Sampling)
  : M HyperParameters Value :=
  retrieve (HFloat name min_value max_value step sampling).

Definition Choice (name : string) (choices : list Value)
  : M HyperParameters Value :=
  retrieve (HChoice name choices).

(** The source annotates what it reads as [int], [float] and [str]; the
    embedding is typed by these annotations, and a value of another type
    (a contract violation that Python would meet further on) stops it
    with [TypeError] where it is read.  An [int] is accepted where a
    [float] is expected. *)
Definition as_int (v : Value) : result Z :=
  match v with VInt z => Ok z | _ => Raise TypeError end.
Definition as_float (v : Value) : result Q :=
  match v with
  | VFloat q => Ok q
  | VInt z => Ok (inject_Z z)
  | VStr _ => Raise TypeError
  end.
Definition as_str (v : Value) : result string :=
  match v with VStr s => Ok s | _ => Raise TypeError end.

(** Equality of values, as [==] of Python sees it within one type. *)
Definition value_eqb (a b : Value) : bool :=
  match a, b with
  | VInt x, VInt y => Z.eqb x y
  | VFloat x, VFloat y => Qeq_bool x y
  | VStr x, VStr y => String.eqb x y
  | _, _ => false
  end.

(** The values a declaration admits, which are those the samplers draw:
    an integer of the range, a float of the range (on the grid
    [min_value + k * step] when a step is given), an entry of the
    choice. *)
Definition on_grid (lo step q : Q) : bool :=
  Z.eqb (Z.pos (Qden (Qred ((q - lo) / step)))) 1.

Definition in_domain (d : HyperParameter) (v : Value) : bool :=
  match d, v with
  | HInt _ lo hi, VInt z => ((lo <=? z) && (z <=? hi))%Z
  | HFloat _ lo hi step _, VFloat q =>
      Qle_bool lo q && Qle_bool q hi
      && match step with Some st => on_grid lo st q | None => true end
  | HChoice _ choices, _ => existsb (value_eqb v) choices
  | _, _ => false
  end.

(** [kt.Objective(name, direction)]. *)
Record Objective : Type := mkObjective {
  objective_name : string;
  direction : string;
}.

(** The arguments of [kt.Hyperband(...)].  [seed] is the keyword of the
    constructor that fixes the sampler's random stream; [None] when the
    call site leaves it out. *)
Record HyperbandArgs : Type := mkHyperband {
  objective : Objective;
  max_epochs : Z;
  factor : Z;
  seed : option Z;
  directory : nat;
  project_name : string;
}.

Inductive TrialStatus : Type := RUNNING | COMPLETED | FAILED.

Definition is_completed (s : TrialStatus) : bool :=
  match s with COMPLETED => true | _ => false end.

(** A trial as the oracle records it: the configuration it ran, where it
    stands, and its objective value. *)
Record Trial : Type := mkTrial {
  hyperparameters : HyperParameters;
  status : TrialStatus;
  score : Q;
}.

(** Python's [sorted(trials, key=score, reverse=r)], written as a stable
    insertion sort: with [reverse] the order is descending, and in both
    directions trials of equal score keep their relative order. *)
Fixpoint insert_by_score (reverse : bool) (t : Trial) (l : list Trial)
  : list Trial :=
  match l with
  | [] => [t]
  | u :: l' =>
      if (if reverse then Qle_bool (score u) (score t)
          else Qle_bool (score t) (score u))
      then t :: u :: l'
      else u :: insert_by_score reverse t l'
  end.

Definition sorted_by_score (reverse : bool) (l : list Trial) : list Trial :=
  foldr (insert_by_score reverse) [] l.

(** [Oracle.get_best_trials(num_trials)]: the completed trials, sorted by
    score in the direction of the objective, cut to [num_trials]. *)
Definition get_best_trials (obj : Objective) (trials : list Trial)
           (num_trials : nat) : list Trial :=
  let completed := filter (fun t => is_completed (status t) = true) trials in
  let sorted_trials :=
    sorted_by_score (bool_decide (direction obj = "max")) completed in
  take num_trials sorted_trials.

(** [Tuner.get_best_hyperparameters(num_trials)]. *)
Definition get_best_hyperparameters (obj : Objective) (trials : list Trial)
           (num_trials : nat) : list HyperParameters :=
  map hyperparameters (get_best_trials obj trials num_trials).

End Kt.

(* ===================================================================== *)
(** ** TensorFlow and Keras *)
(* ===================================================================== *)

Module Tf.

(** *** Symbolic tensors

    What the functional API builds: every call of a layer on a symbolic
    tensor yields a new symbolic tensor that remembers the layer and its
    argument.  A [Dense] layer owns variables (kernel and bias); [uid]
    names them, and is drawn from Keras's global name counter when the
    layer is created. *)
Inductive Tensor : Type :=
| Input (name : string)
    (* tf.keras.layers.Input(shape=(), name=name, dtype=tf.float32) *)
| Stack (ts : list Tensor)
    (* tf.stack(ts, axis=-1) *)
| Dense (uid : nat) (units : Z) (activation : option string)
        (kernel_regularizer bias_regularizer : option string) (x : Tensor)
    (* tf.keras.layers.Dense(units, activation=..., ...)(x) *)
| Dropout (rate : Q) (x : Tensor)
    (* tf.keras.layers.Dropout(rate)(x) *)
| Concatenate (ts : list Tensor)
    (* tf.keras.layers.Concatenate()(ts) *)
| ReduceMean (x : Tensor).
    (* tf.reduce_mean(x, axis=-1, keepdims=True) *)

(** Keras's name counter. *)
Definition fresh_uid : M nat nat := fun n => (Ok n, S n).

(** [tf.stack(values, axis=-1)] reads [values[0]] for the shape. *)
Definition stack (values : list Tensor) : result Tensor :=
  match values with
  | [] => Raise IndexError
  | _ :: _ => Ok (Stack values)
  end.

Definition dense (units : Z) (activation : option string)
           (kernel_regularizer bias_regularizer : option string)
           (x : Tensor) : M nat Tensor :=
  uid ← fresh_uid;
  mret (Dense uid units activation kernel_regularizer bias_regularizer x).

Definition dropout (rate : Q) (x : Tensor) : Tensor := Dropout rate x.

(** A merge layer needs something to merge. *)
Definition concatenate (ts : list Tensor) : result Tensor :=
  match ts with
  | [] => Raise ValueError
  | _ :: _ => Ok (Concatenate ts)
  end.

Definition reduce_mean (x : Tensor) : Tensor := ReduceMean x.

(** The [Dense] layers on the path to a tensor, input side first, and
    the [Dropout] rates likewise. *)
Record DenseSpec : Type := mkDense {
  d_uid : nat;
  d_units : Z;
  d_activation : option string;
  d_kernel_regularizer : option string;
  d_bias_regularizer : option string;
}.

Fixpoint dense_layers (t : Tensor) : list DenseSpec :=
  match t with
  | Input _ => []
  | Stack ts => concat (map dense_layers ts)
  | Dense uid units act kr br x =>
      dense_layers x ++ [mkDense uid units act kr br]
  | Dropout _ x => dense_layers x
  | Concatenate ts => concat (map dense_layers ts)
  | ReduceMean x => dense_layers x
  end.

(** *** Models *)

Inductive Optimizer : Type :=
| Adam (learning_rate : Q)
| DefaultOptimizer.  (* [compile] called without [optimizer=] *)

Record Compiled : Type := mkCompiled {
  optimizer : Optimizer;
  loss : string;
  metrics : list string;
}.

(** [tf.keras.Model(inputs=..., outputs=...)] after [compile].  [inputs]
    is a Python dict, whose order is the insertion order. *)
Record Model : Type := mkModel {
  inputs : list (string * Tensor);
  outputs : Tensor;
  compiled : Compiled;
}.

(** *** Datasets, callbacks and the arguments of [fit] *)

(** [tf.data.experimental.make_csv_dataset(...)]: a dataset is known by
    the arguments it was made with. *)
Record Dataset : Type := mkDataset {
  file_pattern : list string;
  batch_size : Z;
  label_name : string;
  num_epochs : Z;
  shuffle : bool;
  shuffle_buffer_size : Z;
  shuffle_seed : option Z;
}.

(** The two callbacks [train.py] makes, and the two KerasTuner makes
    for every trial of a search: [TunerCallback], which reports the
    metrics of each epoch to the oracle, and the checkpoint of the trial's
    best epoch by the objective. *)
Inductive Callback : Type :=
| ReduceLROnPlateau (monitor : string) (factor : Q) (patience : Z)
                    (verbose : Z)
| EarlyStopping (monitor : string) (patience : Z) (verbose : Z)
                (restore_best_weights : bool)
| TunerCallback
| TunerCheckpoint (monitor : string).

(** [dict[float, float]]: label value to weight. *)
Definition ClassWeight : Type := list (Q * Q).

Record FitArgs : Type := mkFit {
  x : Dataset;
  validation_data : option Dataset;
  epochs : Z;
  fit_verbose : Z;
  class_weight : ClassWeight;
  callbacks : list Callback;
}.

(** [History.history]: metric name to its value after each epoch. *)
Abbreviation History := (gmap string (list Q)).

(** *** Denotation

    What a symbolic tensor computes for one example at inference time.
    An input is a scalar; the other nodes yield the last axis as a
    vector.  [None] is a shape that the graph functions refuse. *)
Inductive Value : Type :=
| Scalar (r : R)
| Vector (v : list R).

(** The current values of the variables of every [Dense] layer:
    [kernel uid i j] and [bias uid j]. *)
Record Variables : Type := mkVariables {
  kernel : nat -> nat -> nat -> R;
  bias : nat -> nat -> R;
}.

#[local] Open Scope R_scope.

Definition relu (x : R) : R := Rmax 0 x.
Definition sigmoid (x : R) : R := / (1 + exp (- x)).
Definition elu (x : R) : R := if Rlt_dec 0 x then x else exp x - 1.
Definition selu_scale : R := 1.0507009873554805.
Definition selu_alpha : R := 1.6732632423543772.
Definition selu (x : R) : R :=
  selu_scale * (if Rlt_dec 0 x then x else selu_alpha * (exp x - 1)).

(** Keras's activation registry, as far as the source names it; no
    activation is the identity. *)
Definition activation_fn (activation : option string) : option (R -> R) :=
  match activation with
  | None => Some (fun x => x)
  | Some a =>
      if String.eqb a "relu" then Some relu
      else if String.eqb a "tanh" then Some tanh
      else if String.eqb a "sigmoid" then Some sigmoid
      else if String.eqb a "elu" then Some elu
      else if String.eqb a "selu" then Some selu
      else None
  end.

Fixpoint dot_from (i : nat) (v : list R) (w : nat -> R) : R :=
  match v with
  | [] => 0
  | a :: v' => a * w i + dot_from (S i) v' w
  end.

Fixpoint Rsum (v : list R) : R :=
  match v with
  | [] => 0
  | a :: v' => a + Rsum v'
  end.

Definition scalar_of (v : Value) : option R :=
  match v with Scalar r => Some r | Vector _ => None end.
Definition vector_of (v : Value) : option (list R) :=
  match v with Vector l => Some l | Scalar _ => None end.

Definition eval_dense (θ : Variables) (uid : nat) (units : Z)
           (act : R -> R) (v : list R) : list R :=
  map (fun j => act (dot_from 0 v (fun i => kernel θ uid i j) + bias θ uid j))
      (seq 0 (Z.to_nat units)).

Definition eval_mean (v : list R) : option Value :=
  match v with
  | [] => None
  | _ :: _ => Some (Vector [Rsum v / INR (length v)])
  end.

Fixpoint eval (θ : Variables) (feed : string -> R) (t : Tensor)
  : option Value :=
  match t with
  | Input name => Some (Scalar (feed name))
  | Stack ts =>
      vs ← mapM (fun t' => eval θ feed t' ≫= scalar_of) ts;
      Some (Vector vs)
  | Dense uid units activation _ _ t' =>
      act ← activation_fn activation;
      v ← eval θ feed t' ≫= vector_of;
      Some (Vector (eval_dense θ uid units act v))
  | Dropout _ t' => eval θ feed t'
  | Concatenate ts =>
      vs ← mapM (fun t' => eval θ feed t' ≫= vector_of) ts;
      Some (Vector (concat vs))
  | ReduceMean t' =>
      v ← eval θ feed t' ≫= vector_of;
      eval_mean v
  end.

(** [model(x)] on one example. *)
Definition call (θ : Variables) (m : Model) (feed : string -> R)
  : option Value :=
  eval θ feed (outputs m).

End Tf.

(* ===================================================================== *)
(** ** train.py: the model builder *)
(* ===================================================================== *)

Import Kt Tf.

(** What building a model reads and writes: the [hp] object handed to
    [build_model], and Keras's name counter. *)
Record BuildState : Type := mkBuild {
  bs_hp : HyperParameters;
  bs_uid : nat;
}.

Definition with_hp {A} (m : M HyperParameters A) : M BuildState A :=
  zoom bs_hp (fun h s => mkBuild h (bs_uid s)) m.

Definition with_keras {A} (m : M nat A) : M BuildState A :=
  zoom bs_uid (fun u s => mkBuild (bs_hp s) u) m.

Definition hp_int (m : M HyperParameters Kt.Value) : M BuildState Z :=
  v ← with_hp m; lift (as_int v).
Definition hp_float (m : M HyperParameters Kt.Value) : M BuildState Q :=
  v ← with_hp m; lift (as_float v).
Definition hp_str (m : M HyperParameters Kt.Value) : M BuildState string :=
  v ← with_hp m; lift (as_str v).

(** One turn of the loop of [get_hidden]: a dense layer of [units] units,
    dropout, then [units //= 2]. *)
Definition hidden_block (dropout : Q) (activation : string)
           (regularization : option string)
           (i : Z) (acc : Tensor * Z) : M BuildState (Tensor * Z) :=
  let '(hidden, units) := acc in
  hidden ← with_keras
             (dense units (Some activation) regularization regularization
                    hidden);
  let hidden := Tf.dropout dropout hidden in
  mret (hidden, units `div` 2).

Definition get_hidden (all_inputs : Tensor) : M BuildState Tensor :=
  layers ← hp_int (Kt.Int "layers" 1 3);
  first_layer_units ←
    hp_int (Kt.Choice "first_layer_units"
              [VInt 32; VInt 64; VInt 128; VInt 512; VInt 1024; VInt 2048]);
  dropout ← hp_float (Kt.Float "dropout" 0.0 0.5 (Some 0.1%Q) Linear);
  activation ←
    hp_str (Kt.Choice "activation"
              [VStr "relu"; VStr "tanh"; VStr "sigmoid"; VStr "elu";
               VStr "selu"]);
  regularization ←
    hp_str (Kt.Choice "regularization"
              [VStr "l1"; VStr "l2"; VStr "l1_l2"; VStr "none"]);
  let regularization :=
    if String.eqb regularization "none" then None else Some regularization in
  let hidden := all_inputs in
  let units := first_layer_units in
  '(hidden, _) ← for_each (range layers)
                    (hidden_block dropout activation regularization)
                    (hidden, units);
  mret hidden.

(** [build_model(hp, inputs)]; [hp] is the object in the state. *)
Definition build_model (inputs : list (string * Tensor)) : M BuildState Model :=
  all_inputs ← lift (Tf.stack (map snd inputs));
  hidden ← get_hidden all_inputs;
  output ← with_keras (dense 1 (Some "sigmoid") None None hidden);
  lr ← hp_float (Kt.Float "lr" 1e-5 1e-2 None Log);
  mret (mkModel inputs output
          (mkCompiled (Adam lr) "binary_crossentropy" ["accuracy"; "auc"])).

Definition wrap_ensemble (inputs : list (string * Tensor))
           (models : list Model) : result Model :=
  concatenated_predictions ← concatenate (map outputs models);
  let mean_predictions := reduce_mean concatenated_predictions in
  Ok (mkModel inputs mean_predictions
        (mkCompiled DefaultOptimizer "binary_crossentropy"
           ["accuracy"; "auc"])).

(* ===================================================================== *)
(** ** train.py: the training pipeline *)
(* ===================================================================== *)

(** The lines written through [logger]. *)
Inductive LogRecord : Type :=
| UsingTemporaryDirectory (temp_dir : nat)
| StartingSearch
| BestHyperparameters (best : gmap string Kt.Value)
| BestEpoch (best_epoch : Z)
| TrainingHypermodel (i : Z)
| WrappingEnsemble
| ModelTrained
| StartingTraining (train_file validation_file evaluation_file : string)
| SavingModel (model_directory : string)
| EvaluatingModel
| EvalMetrics (loss accuracy auc : Q)
| EvalScore (score : Q).

Inductive LogLevel : Type := DEBUG | INFO.

(** What the pipeline does to the outside, in the order it does it. *)
Inductive Event : Type :=
| EMkdtemp (temp_dir : nat)
| ECleanup (temp_dir : nat)
| ELog (level : LogLevel) (record : LogRecord)
| EMakeCsvDataset (ds : Dataset)
| EGetClassWeights (file : string)
| ESearch (tuner : HyperbandArgs) (args : FitArgs)
| EFit (model : Model) (args : FitArgs)
| ESave (model : Model) (model_directory : string)
| EEvaluate (model : Model) (ds : Dataset)
| EPredict (model : Model) (ds : Dataset).

Record World : Type := mkWorld {
  keras_uid : nat;        (* Keras's name counter *)
  live_dirs : list nat;   (* temporary directories that exist *)
  next_dir : nat;         (* the next unused directory name *)
  trace : list Event;     (* the events so far, oldest first *)
}.

(** What the run does not decide: the outcome of every call that leaves
    [train.py].  The answer may depend on everything that happened before
    (the events so far, the call itself being the last of them where it is
    recorded), which covers the draws of generators nobody seeded —
    KerasTuner's sampler and the weight initialisers — and the numeric
    kernels.  [get_class_weights] and [get_flat_ground_truth] are
    functions of this repository ([class_weight.py], [calibration.py])
    that are used here through their contracts only. *)
Record Library : Type := mkLibrary {
  mkdtemp_outcome : list Event -> result unit;
  search_outcome : list Event -> HyperbandArgs -> FitArgs
                   -> result (list Trial);
  fit_outcome : list Event -> Model -> FitArgs -> result History;
  csv_outcome : list Event -> Dataset -> result (list string);
  set_order : list Event -> list string -> list string;
  get_class_weights : list Event -> string -> result ClassWeight;
  save_outcome : list Event -> Model -> string -> result unit;
  evaluate_outcome : list Event -> Model -> Dataset -> result (Q * Q * Q);
  predict_outcome : list Event -> Model -> Dataset -> result (list (list Q));
  get_flat_ground_truth : list Event -> Dataset -> result (list Q);
  roc_auc_score : list Event -> list Q -> list Q -> result Q;
}.

(** The world after more events, and after Keras has handed out names. *)
Definition after (w : World) (evs : list Event) : World :=
  mkWorld (keras_uid w) (live_dirs w) (next_dir w) (trace w ++ evs).
Definition with_uid (w : World) (uid : nat) : World :=
  mkWorld uid (live_dirs w) (next_dir w) (trace w).

Definition emit (e : Event) : M World unit :=
  modify (fun w => after w [e]).

Definition logger_debug (r : LogRecord) : M World unit := emit (ELog DEBUG r).
Definition logger_info (r : LogRecord) : M World unit := emit (ELog INFO r).

(** Ask the library for the outcome of a call, after the events so far. *)
Definition ask {A} (outcome : list Event -> result A) : M World A :=
  fun w => (outcome (trace w), w).

(** [tempfile.TemporaryDirectory(prefix=...)] as a context manager: the
    directory is made on entry and removed when the block is left, by its
    end or by an exception. *)
Definition mkdtemp (lib : Library) : M World nat :=
  _ ← ask (mkdtemp_outcome lib);
  w ← get;
  let temp_dir := next_dir w in
  _ ← put (mkWorld (keras_uid w) (temp_dir :: live_dirs w) (S temp_dir)
                   (trace w ++ [EMkdtemp temp_dir]));
  mret temp_dir.

Definition cleanup (temp_dir : nat) : M World unit :=
  modify (fun w => mkWorld (keras_uid w)
                           (filter (fun d => d ≠ temp_dir) (live_dirs w))
                           (next_dir w)
                           (trace w ++ [ECleanup temp_dir])).

Definition TemporaryDirectory {A} (lib : Library) (body : nat -> M World A)
  : M World A :=
  temp_dir ← mkdtemp lib;
  finally (body temp_dir) (cleanup temp_dir).

(** Run a model builder on the [hp] object; the object comes back as the
    builder left it. *)
Definition run_build {A} (build : M BuildState A) (hp : HyperParameters)
  : M World (A * HyperParameters) :=
  fun w =>
    match build (mkBuild hp (keras_uid w)) with
    | (r, bs) =>
        (match r with Ok a => Ok (a, bs_hp bs) | Raise e => Raise e end,
         with_uid w (bs_uid bs))
    end.

(** The tuner object: its arguments, the search space, and the trials the
    oracle has recorded. *)
Record Tuner : Type := mkTuner {
  tuner_args : HyperbandArgs;
  tuner_space : HyperParameters;
  tuner_trials : list Trial;
}.

(** [kt.Hyperband(hypermodel, ...)]: the constructor calls the hypermodel
    once on an empty container to collect the search space. *)
Definition Hyperband (hypermodel : M BuildState Model) (args : HyperbandArgs)
  : M World Tuner :=
  '(_, hp) ← run_build hypermodel Kt.empty;
  mret (mkTuner args hp []).

(** [tuner.search(x, **fit_kwargs)]. *)
Definition tuner_search (lib : Library) (tuner : Tuner) (args : FitArgs)
  : M World Tuner :=
  _ ← emit (ESearch (tuner_args tuner) args);
  trials ← ask (fun tr => search_outcome lib tr (tuner_args tuner) args);
  mret (mkTuner (tuner_args tuner) (tuner_space tuner)
                (tuner_trials tuner ++ trials)).


Definition tuner_get_best_hyperparameters (tuner : Tuner) (num_trials : nat)
  : list HyperParameters :=
  get_best_hyperparameters (objective (tuner_args tuner))
                           (tuner_trials tuner) num_trials.

(** [model.fit(x, **kwargs)]. *)
Definition model_fit (lib : Library) (model : Model) (args : FitArgs)
  : M World History :=
  _ ← emit (EFit model args);
  ask (fun tr => fit_outcome lib tr model args).

(** The body of the loop that trains the ensemble members. *)
Definition train_member (lib : Library) (inputs : list (string * Tensor))
           (train_and_valid_ds : Dataset) (class_weight : ClassWeight)
           (best_epoch : Z)
           (i : Z) (acc : list Model * HyperParameters)
  : M World (list Model * HyperParameters) :=
  let '(hypermodels, best_hps) := acc in
  _ ← logger_info (TrainingHypermodel (i + 1));
  '(hypermodel, best_hps) ← run_build (build_model inputs) best_hps;
  _ ← model_fit lib hypermodel
        (mkFit train_and_valid_ds None best_epoch 1 class_weight []);
  mret (hypermodels ++ [hypermodel], best_hps).

(** The block under [with tempfile.TemporaryDirectory(...)]; it leaves
    [tuner], [callbacks] and [best_hps] to the rest of the function. *)
Definition search_phase (lib : Library) (train_ds valid_ds : Dataset)
           (inputs : list (string * Tensor)) (class_weight : ClassWeight)
           (temp_dir : nat)
  : M World (Tuner * list Callback * HyperParameters) :=
  _ ← logger_debug (UsingTemporaryDirectory temp_dir);
  tuner ← Hyperband (build_model inputs)
            (mkHyperband (mkObjective "val_auc" "max") 10 3 None temp_dir
                         "playground");
  let callbacks :=
    [ReduceLROnPlateau "val_loss" 0.1 1 1;
     EarlyStopping "val_loss" 3 1 true] in
  _ ← logger_debug StartingSearch;
  tuner ← tuner_search lib tuner
            (mkFit train_ds (Some valid_ds) 10 1 class_weight callbacks);
  best_hps ← lift (unpack1 (tuner_get_best_hyperparameters tuner 1));
  _ ← logger_info (BestHyperparameters (values best_hps));
  mret (tuner, callbacks, best_hps).

(** [best_epoch = np.argmax(val_auc_per_epoch) + 1] *)
Definition select_best_epoch (val_auc_per_epoch : list Q) : result Z :=
  argmax ← Np.argmax val_auc_per_epoch;
  Ok (Z.of_nat argmax + 1).

(** From [model = tuner.hypermodel.build(best_hps)] to the line that logs
    the best epoch. *)
Definition retrain_and_select (lib : Library) (train_ds valid_ds : Dataset)
           (inputs : list (string * Tensor)) (class_weight : ClassWeight)
           (callbacks : list Callback) (best_hps : HyperParameters)
  : M World (Z * HyperParameters) :=
  '(model, best_hps) ← run_build (build_model inputs) best_hps;
  history ← model_fit lib model
              (mkFit train_ds (Some valid_ds) 10 1 class_weight callbacks);
  val_auc_per_epoch ← lift (getitem history "val_auc");
  best_epoch ← lift (select_best_epoch val_auc_per_epoch);
  _ ← logger_info (BestEpoch best_epoch);
  mret (best_epoch, best_hps).

(** The loop [for i in range(3)] that fills [hypermodels]. *)
Definition train_ensemble (lib : Library) (train_and_valid_ds : Dataset)
           (inputs : list (string * Tensor)) (class_weight : ClassWeight)
           (best_epoch : Z) (best_hps : HyperParameters)
  : M World (list Model) :=
  let hypermodels : list Model := [] in
  '(hypermodels, _) ←
    for_each (range 3)
      (train_member lib inputs train_and_valid_ds class_weight best_epoch)
      (hypermodels, best_hps);
  mret hypermodels.

Definition train_model (lib : Library)
           (train_ds valid_ds train_and_valid_ds : Dataset)
           (inputs : list (string * Tensor)) (class_weight : ClassWeight)
  : M World Model :=
  '(tuner, callbacks, best_hps) ←
    TemporaryDirectory lib
      (search_phase lib train_ds valid_ds inputs class_weight);
  '(best_epoch, best_hps) ←
    retrain_and_select lib train_ds valid_ds inputs class_weight callbacks
                       best_hps;
  hypermodels ←
    train_ensemble lib train_and_valid_ds inputs class_weight best_epoch
                   best_hps;
  _ ← logger_debug WrappingEnsemble;
  ensemble_model ← lift (wrap_ensemble inputs hypermodels);
  _ ← logger_info ModelTrained;
  mret ensemble_model.





(** The world a run starts in. *)
Definition initial_world : World := mkWorld 0 [] 0 [].

(* ===================================================================== *)
(** ** The specification's vocabulary *)
(* ===================================================================== *)

(** The Hyperparameter Space of the specification (section 3): six
    dimensions with their domains. *)
Definition spec_search_space : list HyperParameter :=
  [HInt "layers" 1 3;
   HChoice "first_layer_units"
     [VInt 32; VInt 64; VInt 128; VInt 512; VInt 1024; VInt 2048];
   HFloat "dropout" 0.0 0.5 (Some 0.1%Q) Linear;
   HChoice "activation"
     [VStr "relu"; VStr "tanh"; VStr "sigmoid"; VStr "elu"; VStr "selu"];
   HChoice "regularization"
     [VStr "l1"; VStr "l2"; VStr "l1_l2"; VStr "none"];
   HFloat "lr" 1e-5 1e-2 None Log].

(** A Feature Set (section 3): a non-empty mapping from feature names to
    the scalar placeholders of those names. *)
Definition feature_set (inputs : list (string * Tensor)) : bool :=
  match inputs with
  | [] => false
  | _ :: _ =>
      forallb (fun p => match p.2 with
                        | Input name => String.eqb name p.1
                        | _ => false
                        end)
              inputs
  end.

(** A configuration within the declared domains: every dimension has a
    value, and the value is one its declaration admits. *)
Definition within_domains (hp : HyperParameters) : bool :=
  forallb (fun d => match values hp !! hp_name d with
                    | Some v => in_domain d v
                    | None => false
                    end)
          spec_search_space.

(** A Hyperparameter Configuration read as a record. *)
Record Config : Type := mkConfig {
  c_layers : Z;
  c_first_layer_units : Z;
  c_dropout : Q;
  c_activation : string;
  c_regularization : string;
  c_lr : Q;
}.

Definition option_of {A} (r : result A) : option A :=
  match r with Ok a => Some a | Raise _ => None end.

Definition config_of (hp : HyperParameters) : option Config :=
  l ← values hp !! "layers" ≫= (fun v => option_of (as_int v));
  u ← values hp !! "first_layer_units" ≫= (fun v => option_of (as_int v));
  d ← values hp !! "dropout" ≫= (fun v => option_of (as_float v));
  a ← values hp !! "activation" ≫= (fun v => option_of (as_str v));
  r ← values hp !! "regularization" ≫= (fun v => option_of (as_str v));
  lr ← values hp !! "lr" ≫= (fun v => option_of (as_float v));
  Some (mkConfig l u d a r lr).

(** "No regularization applied" for the value [none]. *)
Definition spec_regularizer (c : Config) : option string :=
  if String.eqb (c_regularization c) "none" then None
  else Some (c_regularization c).

(** The width of hidden layer [i], counted from 1: the first width divided
    by [2^(i-1)], rounding down. *)
Definition spec_width (first_layer_units : Z) (i : nat) : Z :=
  first_layer_units `div` 2 ^ (Z.of_nat i - 1).

(** The hidden stack in the specification's words: for [i = 1 .. layers], a
    dense layer of [spec_width i] units with the configured activation and
    regularization of weights and biases, then dropout at the configured
    rate.  Layer [i] is the [i]-th layer created, hence its [uid]. *)
Definition spec_hidden (uid : nat) (c : Config) (x : Tensor) : Tensor :=
  foldl (fun h i =>
           Dropout (c_dropout c)
             (Dense (uid + i - 1)%nat (spec_width (c_first_layer_units c) i)
                    (Some (c_activation c)) (spec_regularizer c)
                    (spec_regularizer c) h))
        x (seq 1 (Z.to_nat (c_layers c))).

(** The Candidate Model of a configuration: the inputs stacked, the hidden
    stack, one sigmoid unit; Adam at [lr], binary cross-entropy, accuracy
    and AUC. *)
Definition spec_model (uid : nat) (c : Config)
           (inputs : list (string * Tensor)) : Model :=
  mkModel inputs
    (Dense (uid + Z.to_nat (c_layers c))%nat 1 (Some "sigmoid") None None
       (spec_hidden uid c (Stack (map snd inputs))))
    (mkCompiled (Adam (c_lr c)) "binary_crossentropy" ["accuracy"; "auc"]).


(** Events of the search phase, and events of the phases after it. *)
Definition is_search_event (e : Event) : bool :=
  match e with ESearch _ _ => true | _ => false end.
Definition is_fit_event (e : Event) : bool :=
  match e with EFit _ _ => true | _ => false end.
Definition is_dir_event (e : Event) : bool :=
  match e with EMkdtemp _ | ECleanup _ => true | _ => false end.

(** The arguments the specification gives for the search (section 4.2):
    validation AUC, maximized; at most 10 epochs; reduction factor 3. *)
Definition spec_hyperband_args (temp_dir : nat) : HyperbandArgs :=
  mkHyperband (mkObjective "val_auc" "max") 10 3 None temp_dir "playground".

(** The two callbacks of sections 4.2 and 4.3. *)
Definition spec_callbacks : list Callback :=
  [ReduceLROnPlateau "val_loss" 0.1 1 1; EarlyStopping "val_loss" 3 1 true].

(** A fit on the train split, validated on the validation split, for up to
    10 epochs, with the class weights and the two callbacks. *)
Definition spec_monitored_fit (train_ds valid_ds : Dataset) (cw : ClassWeight)
  : FitArgs :=
  mkFit train_ds (Some valid_ds) 10 1 cw spec_callbacks.

(** A fit of an ensemble member (section 4.4): the combined data, a fixed
    number of epochs, the class weights, no validation data and no
    callback. *)
Definition spec_member_fit (train_and_valid_ds : Dataset) (cw : ClassWeight)
           (best_epoch : Z) : FitArgs :=
  mkFit train_and_valid_ds None best_epoch 1 cw [].

Definition is_log (e : Event) : Prop :=
  exists level record, e = ELog level record.

(** What the search phase may do, what Retrain-and-Select may do, and what
    the Ensemble Trainer may do. *)
Definition search_event (temp_dir : nat) (train_ds valid_ds : Dataset)
           (cw : ClassWeight) (e : Event) : Prop :=
  is_log e
  \/ e = ESearch (spec_hyperband_args temp_dir)
                 (spec_monitored_fit train_ds valid_ds cw).

Definition retrain_event (train_ds valid_ds : Dataset) (cw : ClassWeight)
           (e : Event) : Prop :=
  is_log e
  \/ exists model, e = EFit model (spec_monitored_fit train_ds valid_ds cw).

Definition member_event (train_and_valid_ds : Dataset) (cw : ClassWeight)
           (best_epoch : Z) (e : Event) : Prop :=
  is_log e
  \/ exists model,
       e = EFit model (spec_member_fit train_and_valid_ds cw best_epoch).

(** A computation that leaves the temporary directories alone, only adds
    events satisfying [P] to the trace, and returns, when it returns, a
    value satisfying [Q]. *)
Definition appends {A} (P : Event -> Prop) (Q : A -> Prop) (m : M World A)
  : Prop :=
  forall w,
    live_dirs (m w).2 = live_dirs w
    /\ next_dir (m w).2 = next_dir w
    /\ (exists evs, trace (m w).2 = trace w ++ evs /\ Forall P evs)
    /\ (forall a, (m w).1 = Ok a -> Q a).









(** A world whose directory names in use are below the next one. *)
Definition well_formed (w : World) : bool :=
  forallb (fun d => Nat.ltb d (next_dir w)) (live_dirs w).

(* ===================================================================== *)
(** ** Sample data *)
(* ===================================================================== *)

(** A configuration of three layers starting at the smallest width. *)
Definition sample_values : gmap string Kt.Value :=
  list_to_map
    [("layers", VInt 3); ("first_layer_units", VInt 32);
     ("dropout", VFloat 0.2); ("activation", VStr "tanh");
     ("regularization", VStr "none"); ("lr", VFloat 1e-3)].

Definition sample_hp : HyperParameters := mkHP spec_search_space sample_values.

(** Two features. *)
Definition sample_inputs : list (string * Tensor) :=
  [("age", Input "age"); ("income", Input "income")].

(** Another configuration: one wide layer. *)
Definition other_values : gmap string Kt.Value :=
  list_to_map
    [("layers", VInt 1); ("first_layer_units", VInt 64);
     ("dropout", VFloat 0.0); ("activation", VStr "relu");
     ("regularization", VStr "l2"); ("lr", VFloat 1e-2)].

Definition other_hp : HyperParameters := mkHP spec_search_space other_values.

(** The trials of a search in which the wide layer wins, and those of a
    search over the same two configurations in which it loses, as happens
    when the weights start elsewhere. *)
Definition sample_trials : list Trial :=
  [mkTrial sample_hp COMPLETED 0.81; mkTrial other_hp COMPLETED 0.86;
   mkTrial sample_hp FAILED 0.0].


(** A training history whose validation AUC peaks at the third epoch and
    stays there for the fourth. *)
Definition sample_history : gmap string (list Q) :=
  list_to_map
    [("val_auc", [0.5; 0.7; 0.9; 0.9; 0.6]%Q);
     ("val_loss", [0.69; 0.6; 0.5; 0.5; 0.55]%Q)].

Definition sample_train_ds : Dataset :=
  mkDataset ["train.csv"] 64 "classification_target" 1 true 1000 (Some 17).
Definition sample_valid_ds : Dataset :=
  mkDataset ["valid.csv"] 64 "classification_target" 1 false 10000 None.
Definition sample_train_and_valid_ds : Dataset :=
  mkDataset ["train.csv"; "valid.csv"] 64 "classification_target" 1 true 2000
            (Some 17).
Definition sample_class_weight : ClassWeight := [(0, 0.625); (1, 2.5)]%Q.


(** A library in which every call succeeds. *)
Definition sample_library : Library :=
  mkLibrary
    (fun _ => Ok ())
    (fun _ _ _ => Ok sample_trials)
    (fun _ _ _ => Ok sample_history)
    (fun _ _ => Ok ["id"; "age"; "income"])
    (fun _ names => names)
    (fun _ _ => Ok sample_class_weight)
    (fun _ _ _ => Ok ())
    (fun _ _ _ => Ok (0.41, 0.8, 0.87)%Q)
    (fun _ _ _ => Ok [[0.2]; [0.7]]%Q)
    (fun _ _ => Ok [0; 1]%Q)
    (fun _ _ _ => Ok 1%Q).


(** A library in which training the second ensemble member fails. *)
Definition failing_library : Library :=
  mkLibrary
    (mkdtemp_outcome sample_library)
    (search_outcome sample_library)
    (fun tr model args =>
       if existsb (fun e => match e with
                            | ELog _ (TrainingHypermodel i) => Z.eqb i 2
                            | _ => false
                            end) tr
       then Raise (ExternalError 7)
       else Ok sample_history)
    (csv_outcome sample_library)
    (set_order sample_library)
    (get_class_weights sample_library)
    (save_outcome sample_library)
    (evaluate_outcome sample_library)
    (predict_outcome sample_library)
    (get_flat_ground_truth sample_library)
    (roc_auc_score sample_library).

(** A configuration outside the declared domains: three layers from a
    first width of 6. *)
Definition narrow_values : gmap string Kt.Value :=
  list_to_map
    [("layers", VInt 3); ("first_layer_units", VInt 6);
     ("dropout", VFloat 0.0); ("activation", VStr "relu");
     ("regularization", VStr "none"); ("lr", VFloat 1e-3)].

Definition narrow_hp : HyperParameters := mkHP [] narrow_values.

(** A library whose search completes no trial, and one whose fits record
    the training metrics only. *)
Definition fruitless_library : Library :=
  mkLibrary
    (mkdtemp_outcome sample_library)
    (fun _ _ _ => Ok [mkTrial sample_hp FAILED 0.0;
                      mkTrial other_hp RUNNING 0.0])
    (fit_outcome sample_library)
    (csv_outcome sample_library)
    (set_order sample_library)
    (get_class_weights sample_library)
    (save_outcome sample_library)
    (evaluate_outcome sample_library)
    (predict_outcome sample_library)
    (get_flat_ground_truth sample_library)
    (roc_auc_score sample_library).

Definition unmonitored_library : Library :=
  mkLibrary
    (mkdtemp_outcome sample_library)
    (search_outcome sample_library)
    (fun _ _ _ => Ok (list_to_map [("loss", [0.7; 0.6]%Q);
                                   ("auc", [0.6; 0.7]%Q)]))
    (csv_outcome sample_library)
    (set_order sample_library)
    (get_class_weights sample_library)
    (save_outcome sample_library)
    (evaluate_outcome sample_library)
    (predict_outcome sample_library)
    (get_flat_ground_truth sample_library)
    (roc_auc_score sample_library).

(* ===================================================================== *)
(** * Theorems *)
(* ===================================================================== *)

(** ** Running monadic code *)

Section Running.
Context {S : Type}.

Lemma run_bind {A B} (m : M S A) (f : A -> M S B) (s : S) :
  (m ≫= f) s = match m s with
               | (Ok a, s') => f a s'
               | (Raise e, s') => (Raise e, s')
               end.
Proof. reflexivity. Qed.

Lemma run_bind_ok {A B} (m : M S A) (f : A -> M S B) s a s' :
  m s = (Ok a, s') -> (m ≫= f) s = f a s'.
Proof. intros H. rewrite run_bind, H. reflexivity. Qed.

Lemma run_bind_raise {A B} (m : M S A) (f : A -> M S B) s e s' :
  m s = (Raise e, s') -> (m ≫= f) s = (Raise e, s').
Proof. intros H. rewrite run_bind, H. reflexivity. Qed.

Lemma run_bind_inv {A B} (m : M S A) (f : A -> M S B) s b s2 :
  (m ≫= f) s = (Ok b, s2) ->
  exists a s1, m s = (Ok a, s1) /\ f a s1 = (Ok b, s2).
Proof.
  rewrite run_bind. destruct (m s) as [[a|e] s1]; [eauto | discriminate].
Qed.
End Running.

(** ** [np.argmax] *)

Section Argmax.
#[local] Open Scope Q_scope.

Lemma argmax_loop_spec (ip pre : list Q) (mp : Q) (k : nat) :
  pre !! k = Some mp ->
  (forall j x, pre !! j = Some x -> x <= mp) ->
  (forall j x, (j < k)%nat -> pre !! j = Some x -> x < mp) ->
  exists m,
    (pre ++ ip) !! Np.argmax_loop mp k (length pre) ip = Some m
    /\ (forall j x, (pre ++ ip) !! j = Some x -> x <= m)
    /\ (forall j x, (j < Np.argmax_loop mp k (length pre) ip)%nat ->
                    (pre ++ ip) !! j = Some x -> x < m).
Proof.
  revert pre mp k.
  induction ip as [|y ip IH]; intros pre mp k Hk Hle Hlt; simpl.
  - rewrite app_nil_r. eauto.
  - replace (pre ++ y :: ip) with ((pre ++ [y]) ++ ip)
      by (rewrite <- app_assoc; reflexivity).
    replace (Datatypes.S (length pre)) with (length (pre ++ [y]))
      by (rewrite length_app; simpl; lia).
    destruct (Qle_bool y mp) eqn:Hy; simpl.
    + apply Qle_bool_iff in Hy.
      apply IH.
      * rewrite lookup_app_l; [assumption|]. eapply lookup_lt_Some; eauto.
      * intros j x Hj. apply lookup_app_Some in Hj as [Hj|[_ Hj]]; [eauto|].
        apply list_lookup_singleton_Some in Hj as [_ <-]. assumption.
      * intros j x Hjk Hj. apply lookup_app_Some in Hj as [Hj|[Hge _]]; [eauto|].
        apply lookup_lt_Some in Hk. lia.
    + assert (mp < y) as Hlt'.
      { apply Qnot_le_lt. intros H. apply Qle_bool_iff in H. congruence. }
      apply IH.
      * rewrite lookup_app_r by lia. rewrite Nat.sub_diag. reflexivity.
      * intros j x Hj. apply lookup_app_Some in Hj as [Hj|[_ Hj]].
        -- apply Qle_trans with mp; [eauto | apply Qlt_le_weak; assumption].
        -- apply list_lookup_singleton_Some in Hj as [_ <-]. apply Qle_refl.
      * intros j x Hjk Hj. apply lookup_app_Some in Hj as [Hj|[Hge _]]; [|lia].
        apply Qle_lt_trans with mp; eauto.
Qed.

Lemma argmax_spec (a : list Q) :
  a <> [] ->
  exists i m,
    Np.argmax a = Ok i
    /\ a !! i = Some m
    /\ (forall j x, a !! j = Some x -> x <= m)
    /\ (forall j x, (j < i)%nat -> a !! j = Some x -> x < m).
Proof.
  destruct a as [|x a]; [congruence|]. intros _.
  destruct (argmax_loop_spec a [x] x 0) as (m & H1 & H2 & H3).
  - reflexivity.
  - intros [|j] y Hj; simpl in Hj; [|discriminate].
    injection Hj as <-. apply Qle_refl.
  - intros j y Hj. lia.
  - exists (Np.argmax_loop x 0 1 a), m. simpl in *. auto.
Qed.
End Argmax.

(** ** The model builder *)

Section Builder.

Lemma retrieve_present (d : HyperParameter) (hp : HyperParameters) v :
  values hp !! hp_name d = Some v ->
  exists sp, retrieve d hp = (Ok v, mkHP sp (values hp)).
Proof.
  intros H. unfold retrieve, register.
  destruct (exists_ (hp_name d) hp); rewrite H.
  - exists (space hp). destruct hp; reflexivity.
  - eexists. reflexivity.
Qed.

(** Reading a dimension that has a value of the expected type leaves the
    values and the name counter as they are. *)
Lemma hp_read {A} (conv : Kt.Value -> result A) d sp vals uid v a :
  vals !! hp_name d = Some v ->
  conv v = Ok a ->
  exists sp',
    (with_hp (retrieve d) ≫= (fun v => lift (conv v)))
      (mkBuild (mkHP sp vals) uid)
    = (Ok a, mkBuild (mkHP sp' vals) uid).
Proof.
  intros Hv Hc.
  destruct (retrieve_present d (mkHP sp vals) v Hv) as [sp' E].
  exists sp'. rewrite run_bind. unfold with_hp, zoom. simpl in *.
  rewrite E. simpl. unfold lift. rewrite Hc. reflexivity.
Qed.

Lemma config_of_inv hp c :
  config_of hp = Some c ->
  exists vl vu vd va vr vlr,
    values hp !! "layers" = Some vl /\ as_int vl = Ok (c_layers c)
    /\ values hp !! "first_layer_units" = Some vu
    /\ as_int vu = Ok (c_first_layer_units c)
    /\ values hp !! "dropout" = Some vd /\ as_float vd = Ok (c_dropout c)
    /\ values hp !! "activation" = Some va
    /\ as_str va = Ok (c_activation c)
    /\ values hp !! "regularization" = Some vr
    /\ as_str vr = Ok (c_regularization c)
    /\ values hp !! "lr" = Some vlr /\ as_float vlr = Ok (c_lr c).
Proof.
  unfold config_of. intros H.
  destruct (values hp !! "layers") as [vl|]; [|discriminate].
  destruct (values hp !! "first_layer_units") as [vu|];
    [|simpl in H; destruct (option_of (as_int vl)); discriminate].
  destruct (values hp !! "dropout") as [vd|];
    [|simpl in H; destruct (option_of (as_int vl)),
                  (option_of (as_int vu)); discriminate].
  destruct (values hp !! "activation") as [va|];
    [|simpl in H; destruct (option_of (as_int vl)),
                  (option_of (as_int vu)), (option_of (as_float vd));
      discriminate].
  destruct (values hp !! "regularization") as [vr|];
    [|simpl in H; destruct (option_of (as_int vl)),
                  (option_of (as_int vu)), (option_of (as_float vd)),
                  (option_of (as_str va)); discriminate].
  destruct (values hp !! "lr") as [vlr|];
    [|simpl in H; destruct (option_of (as_int vl)),
                  (option_of (as_int vu)), (option_of (as_float vd)),
                  (option_of (as_str va)), (option_of (as_str vr));
      discriminate].
  simpl in H.
  destruct (as_int vl) as [l|] eqn:El; [|discriminate].
  destruct (as_int vu) as [u|] eqn:Eu; [|discriminate].
  destruct (as_float vd) as [d|] eqn:Ed; [|discriminate].
  destruct (as_str va) as [a|] eqn:Ea; [|discriminate].
  destruct (as_str vr) as [r|] eqn:Er; [|discriminate].
  destruct (as_float vlr) as [lr|] eqn:Elr; [|discriminate].
  simpl in H. injection H as <-. simpl.
  exists vl, vu, vd, va, vr, vlr. repeat split; reflexivity || assumption.
Qed.

(** The loop of [get_hidden], begun at its [j]-th turn. *)
Lemma hidden_loop (c : Config) (hp : HyperParameters) (uid : nat) :
  forall (n j : nat) (h : Tensor),
    for_each (map Z.of_nat (seq j n))
      (hidden_block (c_dropout c) (c_activation c) (spec_regularizer c))
      (h, c_first_layer_units c `div` 2 ^ Z.of_nat j)
      (mkBuild hp (uid + j))
    = (Ok (foldl (fun h i =>
                    Dropout (c_dropout c)
                      (Dense (uid + i - 1)%nat
                         (spec_width (c_first_layer_units c) i)
                         (Some (c_activation c)) (spec_regularizer c)
                         (spec_regularizer c) h))
                 h (seq (Datatypes.S j) n),
           c_first_layer_units c `div` 2 ^ Z.of_nat (j + n)),
       mkBuild hp (uid + j + n)).
Proof.
  induction n as [|n IH]; intros j h; simpl.
  - rewrite !Nat.add_0_r. reflexivity.
  - rewrite run_bind. simpl.
    replace ((c_first_layer_units c `div` 2 ^ Z.of_nat j) `div` 2)
      with (c_first_layer_units c `div` 2 ^ Z.of_nat (Datatypes.S j)).
    2:{ rewrite Nat2Z.inj_succ, Z.pow_succ_r by lia.
        rewrite (Z.mul_comm 2). rewrite Zdiv.Zdiv_Zdiv by lia. reflexivity. }
    replace (Datatypes.S (uid + j)) with (uid + Datatypes.S j)%nat by lia.
    rewrite IH.
    replace (uid + Datatypes.S j - 1)%nat with (uid + j)%nat by lia.
    unfold spec_width at 3.
    replace (Z.of_nat (Datatypes.S j) - 1) with (Z.of_nat j) by lia.
    replace (Datatypes.S j + n)%nat with (j + Datatypes.S n)%nat by lia.
    replace (uid + Datatypes.S j + n)%nat with (uid + j + Datatypes.S n)%nat
      by lia.
    reflexivity.
Qed.

Lemma with_keras_dense units act kr br (x : Tensor) hp uid :
  with_keras (dense units act kr br x) (mkBuild hp uid)
  = (Ok (Dense uid units act kr br x), mkBuild hp (Datatypes.S uid)).
Proof. reflexivity. Qed.

Ltac read_hp H1 H2 :=
  let sp := fresh "sp" in
  let E := fresh "E" in
  match goal with
  | |- context [ mbind _ (mbind (fun v => lift (?conv v))
                                (with_hp (retrieve ?d)))
                       (mkBuild (mkHP ?sp0 ?vals) ?uid) ] =>
      destruct (hp_read conv d sp0 vals uid _ _ H1 H2) as [sp E];
      rewrite (run_bind_ok _ _ _ _ _ E); clear E
  end.

Lemma get_hidden_config (c : Config) sp vals uid (x : Tensor) :
  config_of (mkHP sp vals) = Some c ->
  exists sp',
    get_hidden x (mkBuild (mkHP sp vals) uid)
    = (Ok (spec_hidden uid c x),
       mkBuild (mkHP sp' vals) (uid + Z.to_nat (c_layers c))).
Proof.
  intros Hc.
  destruct (config_of_inv _ _ Hc)
    as (vl & vu & vd & va & vr & vlr & Hl & Hl' & Hu & Hu' & Hd & Hd'
        & Ha & Ha' & Hr & Hr' & _).
  simpl in Hl, Hu, Hd, Ha, Hr.
  unfold get_hidden, hp_int, hp_float, hp_str, Kt.Int, Kt.Float, Kt.Choice.
  read_hp Hl Hl'. read_hp Hu Hu'. read_hp Hd Hd'. read_hp Ha Ha'.
  read_hp Hr Hr'.
  exists sp4. rewrite (run_bind (S:=BuildState)). unfold range.
  pose proof (hidden_loop c (mkHP sp4 vals) uid (Z.to_nat (c_layers c)) 0 x)
    as Hloop.
  rewrite Z.pow_0_r, Z.div_1_r, !Nat.add_0_r in Hloop.
  unfold spec_regularizer in Hloop. rewrite Hloop. reflexivity.
Qed.

(** [build_model] at a configuration: the Candidate Model of the
    specification, built from [layers + 1] fresh dense layers; the
    values of the container are left as they were. *)
Lemma build_model_config (c : Config) inputs sp vals uid :
  inputs <> [] ->
  config_of (mkHP sp vals) = Some c ->
  exists sp',
    build_model inputs (mkBuild (mkHP sp vals) uid)
    = (Ok (spec_model uid c inputs),
       mkBuild (mkHP sp' vals) (Datatypes.S (uid + Z.to_nat (c_layers c)))).
Proof.
  intros Hin Hc.
  destruct (config_of_inv _ _ Hc)
    as (_ & _ & _ & _ & _ & vlr & _ & _ & _ & _ & _ & _ & _ & _ & _ & _
        & Hlr & Hlr').
  simpl in Hlr.
  unfold build_model.
  rewrite run_bind.
  destruct inputs as [|p inputs]; [congruence|].
  cbn [Tf.stack lift map].
  destruct (get_hidden_config c sp vals uid (Stack (p.2 :: map snd inputs)) Hc)
    as [sp1 E1].
  rewrite (run_bind_ok _ _ _ _ _ E1).
  destruct (hp_read as_float (HFloat "lr" 1e-5 1e-2 None Log) sp1 vals
              (Datatypes.S (uid + Z.to_nat (c_layers c))) _ _ Hlr Hlr')
    as [sp2 E2].
  exists sp2.
  rewrite (run_bind_ok _ _ _ _ _ (with_keras_dense _ _ _ _ _ _ _)).
  unfold hp_float, Kt.Float.
  rewrite (run_bind_ok _ _ _ _ _ E2). reflexivity.
Qed.

End Builder.

(** ** Configurations within the declared domains *)

Section Domains.

Lemma choice_int_inv v (zs : list Z) :
  existsb (value_eqb v) (map VInt zs) = true ->
  exists z, v = VInt z /\ In z zs.
Proof.
  induction zs as [|z zs IH]; simpl; [discriminate|].
  intros H. apply orb_true_iff in H as [H|H].
  - destruct v; simpl in H; try discriminate.
    apply Z.eqb_eq in H. subst. eauto.
  - destruct (IH H) as (z' & -> & Hin). eauto.
Qed.

Lemma choice_str_inv v (ss : list string) :
  existsb (value_eqb v) (map VStr ss) = true ->
  exists s, v = VStr s /\ In s ss.
Proof.
  induction ss as [|s ss IH]; simpl; [discriminate|].
  intros H. apply orb_true_iff in H as [H|H].
  - destruct v; simpl in H; try discriminate.
    apply String.eqb_eq in H. subst. eauto.
  - destruct (IH H) as (s' & -> & Hin). eauto.
Qed.

Lemma within_domains_inv (hp : HyperParameters) :
  within_domains hp = true ->
  exists c,
    config_of hp = Some c
    /\ 1 <= c_layers c <= 3
    /\ In (c_first_layer_units c) [32; 64; 128; 512; 1024; 2048]
    /\ (0.0 <= c_dropout c <= 0.5)%Q
    /\ In (c_activation c) ["relu"; "tanh"; "sigmoid"; "elu"; "selu"]
    /\ In (c_regularization c) ["l1"; "l2"; "l1_l2"; "none"]
    /\ (1e-5 <= c_lr c <= 1e-2)%Q.
Proof.
  unfold within_domains, spec_search_space. cbn [forallb hp_name].
  rewrite !andb_true_iff.
  intros (Hl & Hu & Hd & Ha & Hr & Hlr & _).
  unfold config_of.
  destruct (values hp !! "layers") as [vl|]; [|discriminate].
  destruct (values hp !! "first_layer_units") as [vu|]; [|discriminate].
  destruct (values hp !! "dropout") as [vd|]; [|discriminate].
  destruct (values hp !! "activation") as [va|]; [|discriminate].
  destruct (values hp !! "regularization") as [vr|]; [|discriminate].
  destruct (values hp !! "lr") as [vlr|]; [|discriminate].
  destruct vl as [l| |]; try discriminate.
  cbn [in_domain] in Hl. apply andb_true_iff in Hl as [Hl1 Hl2].
  apply Z.leb_le in Hl1, Hl2.
  cbn [in_domain] in Hu.
  apply (choice_int_inv vu [32; 64; 128; 512; 1024; 2048]) in Hu
    as (u & -> & Hu).
  destruct vd as [|d|]; try discriminate.
  cbn [in_domain] in Hd. rewrite !andb_true_iff in Hd.
  destruct Hd as [[Hd1 Hd2] _]. apply Qle_bool_iff in Hd1, Hd2.
  cbn [in_domain] in Ha.
  apply (choice_str_inv va ["relu"; "tanh"; "sigmoid"; "elu"; "selu"]) in Ha
    as (a & -> & Ha).
  cbn [in_domain] in Hr.
  apply (choice_str_inv vr ["l1"; "l2"; "l1_l2"; "none"]) in Hr
    as (r & -> & Hr).
  destruct vlr as [|lr|]; try discriminate.
  cbn [in_domain] in Hlr. rewrite !andb_true_iff in Hlr.
  destruct Hlr as [[Hlr1 Hlr2] _]. apply Qle_bool_iff in Hlr1, Hlr2.
  exists (mkConfig l u d a r lr).
  cbn [c_layers c_first_layer_units c_dropout c_activation
       c_regularization c_lr].
  repeat split; solve [assumption | reflexivity].
Qed.

End Domains.

(** ** Shape and denotation of the built network *)

Section Network.

Lemma feature_set_nonempty inputs : feature_set inputs = true -> inputs <> [].
Proof. destruct inputs; [discriminate | congruence]. Qed.

Lemma feature_set_placeholders inputs :
  feature_set inputs = true ->
  Forall (fun p => p.2 = Input p.1) inputs.
Proof.
  destruct inputs as [|p0 inputs0]; [discriminate|].
  unfold feature_set. generalize (p0 :: inputs0). clear.
  intros l H. induction l as [|p l IH]; constructor.
  - simpl in H. apply andb_true_iff in H as [H _].
    destruct (p.2); try discriminate.
    apply String.eqb_eq in H. congruence.
  - apply IH. simpl in H. apply andb_true_iff in H as [_ H]. exact H.
Qed.

Lemma dense_layers_hidden_from (c : Config) (uid : nat) :
  forall (n j : nat) (h : Tensor),
    dense_layers
      (foldl (fun h i =>
                Dropout (c_dropout c)
                  (Dense (uid + i - 1)%nat
                     (spec_width (c_first_layer_units c) i)
                     (Some (c_activation c)) (spec_regularizer c)
                     (spec_regularizer c) h))
             h (seq j n))
    = dense_layers h
      ++ map (fun i => mkDense (uid + i - 1)%nat
                         (spec_width (c_first_layer_units c) i)
                         (Some (c_activation c)) (spec_regularizer c)
                         (spec_regularizer c))
             (seq j n).
Proof.
  induction n as [|n IH]; intros j h; simpl.
  - rewrite app_nil_r. reflexivity.
  - rewrite IH. simpl. rewrite <- app_assoc. reflexivity.
Qed.

Lemma dense_layers_stack_inputs inputs :
  Forall (fun p : string * Tensor => p.2 = Input p.1) inputs ->
  dense_layers (Stack (map snd inputs)) = [].
Proof.
  simpl. induction 1 as [|p l Hp _ IH]; simpl; [reflexivity|].
  rewrite Hp. simpl. exact IH.
Qed.

(** The dense layers of a Candidate Model, input side first. *)
Lemma dense_layers_spec_model (c : Config) uid inputs :
  feature_set inputs = true ->
  dense_layers (outputs (spec_model uid c inputs))
  = map (fun i => mkDense (uid + i - 1)%nat
                    (spec_width (c_first_layer_units c) i)
                    (Some (c_activation c)) (spec_regularizer c)
                    (spec_regularizer c))
        (seq 1 (Z.to_nat (c_layers c)))
    ++ [mkDense (uid + Z.to_nat (c_layers c))%nat 1 (Some "sigmoid")
                None None].
Proof.
  intros Hf. apply feature_set_placeholders in Hf.
  cbn [spec_model outputs dense_layers]. unfold spec_hidden.
  rewrite dense_layers_hidden_from, (dense_layers_stack_inputs _ Hf).
  reflexivity.
Qed.

#[local] Open Scope R_scope.

Lemma sigmoid_range (z : R) : 0 < sigmoid z < 1.
Proof.
  unfold sigmoid. pose proof (exp_pos (- z)) as He.
  split.
  - apply Rinv_0_lt_compat. lra.
  - rewrite <- Rinv_1. apply Rinv_lt_contravar; lra.
Qed.

Lemma eval_stack_inputs θ feed inputs :
  Forall (fun p : string * Tensor => p.2 = Input p.1) inputs ->
  eval θ feed (Stack (map snd inputs))
  = Some (Vector (map (fun p => feed p.1) inputs)).
Proof.
  intros H. cbn [eval].
  assert (mapM (fun t' => eval θ feed t' ≫= scalar_of) (map snd inputs)
          = Some (map (fun p => feed p.1) inputs)) as ->; [|reflexivity].
  induction H as [|p l Hp _ IH]; [reflexivity|].
  cbn [map mapM]. rewrite Hp. cbn [eval]. simpl. rewrite IH. reflexivity.
Qed.

Lemma eval_hidden_from θ feed (c : Config) (uid : nat) f :
  activation_fn (Some (c_activation c)) = Some f ->
  forall (n j : nat) (h : Tensor) v,
    eval θ feed h = Some (Vector v) ->
    exists v',
      eval θ feed
        (foldl (fun h i =>
                  Dropout (c_dropout c)
                    (Dense (uid + i - 1)%nat
                       (spec_width (c_first_layer_units c) i)
                       (Some (c_activation c)) (spec_regularizer c)
                       (spec_regularizer c) h))
               h (seq j n))
      = Some (Vector v').
Proof.
  intros Hact. induction n as [|n IH]; intros j h v Hh; simpl.
  - eauto.
  - eapply IH. cbn [eval]. rewrite Hact, Hh. reflexivity.
Qed.

Lemma activation_in_domain a :
  In a ["relu"; "tanh"; "sigmoid"; "elu"; "selu"] ->
  exists f, activation_fn (Some a) = Some f.
Proof.
  simpl. intros [<-|[<-|[<-|[<-|[<-|[]]]]]]; eexists; reflexivity.
Qed.

(** The output of a Candidate Model on one example is one number, the
    sigmoid of the last layer's pre-activation. *)
Lemma call_spec_model θ feed (c : Config) uid inputs :
  feature_set inputs = true ->
  In (c_activation c) ["relu"; "tanh"; "sigmoid"; "elu"; "selu"] ->
  exists p, call θ (spec_model uid c inputs) feed = Some (Vector [p])
            /\ 0 <= p <= 1.
Proof.
  intros Hf Ha. apply feature_set_placeholders in Hf.
  destruct (activation_in_domain _ Ha) as [f Hact].
  destruct (eval_hidden_from θ feed c uid f Hact (Z.to_nat (c_layers c)) 1
              _ _ (eval_stack_inputs θ feed inputs Hf)) as [v Hv].
  unfold call. cbn [spec_model outputs eval]. unfold spec_hidden.
  rewrite Hv. cbn.
  eexists. split; [reflexivity|].
  match goal with |- 0 <= sigmoid ?z <= 1 =>
    pose proof (sigmoid_range z) end.
  lra.
Qed.

End Network.

(** ** The Model Builder and the Hyperparameter Space *)

(** C3.  For every configuration within the declared domains and every
    non-empty feature set, [build_model] returns the Candidate Model of the
    specification: the inputs stacked into one vector; then, for [layers]
    turns, a dense layer with the configured activation and the configured
    regularizer on kernel and bias, followed by dropout at the configured
    rate, the width starting at [first_layer_units] and halving by integer
    division with no clamping; then one dense sigmoid unit.  On every
    example the model yields one number, which lies in [0,1].  With one
    layer the only hidden width is [first_layer_units] itself; with three
    layers from 32 the hidden widths are 32, 16, 8. *)
Theorem build_model_architecture
        (hp : HyperParameters) (inputs : list (string * Tensor)) (uid : nat) :
  within_domains hp = true ->
  feature_set inputs = true ->
  exists c m bs',
    config_of hp = Some c
    /\ build_model inputs (mkBuild hp uid) = (Ok m, bs')
    /\ m = spec_model uid c inputs
    /\ (forall θ feed,
          exists p, call θ m feed = Some (Vector [p]) /\ (0 <= p <= 1)%R)
    /\ (c_layers c = 1 ->
        outputs m
        = Dense (uid + 1)%nat 1 (Some "sigmoid") None None
            (Dropout (c_dropout c)
               (Dense uid (c_first_layer_units c) (Some (c_activation c))
                      (spec_regularizer c) (spec_regularizer c)
                      (Stack (map snd inputs)))))
    /\ (c_layers c = 3 -> c_first_layer_units c = 32 ->
        map d_units (dense_layers (outputs m)) = [32; 16; 8; 1]).
Proof.
  intros Hd Hf.
  destruct (within_domains_inv hp Hd) as (c & Hc & _ & _ & _ & Ha & _).
  destruct hp as [sp vals].
  destruct (build_model_config c inputs sp vals uid
              (feature_set_nonempty _ Hf) Hc) as [sp' Hb].
  exists c, (spec_model uid c inputs). eexists.
  split; [exact Hc|]. split; [exact Hb|]. split; [reflexivity|].
  split; [|split].
  - intros θ feed. apply call_spec_model; assumption.
  - intros Hl. cbn [spec_model outputs]. unfold spec_hidden. rewrite Hl.
    change (Z.to_nat 1) with 1%nat. cbn [seq foldl].
    replace (spec_width (c_first_layer_units c) 1) with (c_first_layer_units c)
      by (unfold spec_width; change (Z.of_nat 1 - 1) with 0;
          rewrite Z.pow_0_r, Z.div_1_r; reflexivity).
    replace (uid + 1 - 1)%nat with uid by lia. reflexivity.
  - intros Hl Hu. rewrite dense_layers_spec_model by assumption.
    rewrite Hl, Hu. reflexivity.
Qed.

Lemma build_model_architecture_witness :
  exists c m bs',
    config_of sample_hp = Some c
    /\ build_model sample_inputs (mkBuild sample_hp 0) = (Ok m, bs')
    /\ m = spec_model 0 c sample_inputs
    /\ (forall θ feed,
          exists p, call θ m feed = Some (Vector [p]) /\ (0 <= p <= 1)%R)
    /\ (c_layers c = 1 ->
        outputs m
        = Dense (0 + 1)%nat 1 (Some "sigmoid") None None
            (Dropout (c_dropout c)
               (Dense 0 (c_first_layer_units c) (Some (c_activation c))
                      (spec_regularizer c) (spec_regularizer c)
                      (Stack (map snd sample_inputs)))))
    /\ (c_layers c = 3 -> c_first_layer_units c = 32 ->
        map d_units (dense_layers (outputs m)) = [32; 16; 8; 1]).
Proof.
  apply (build_model_architecture sample_hp sample_inputs 0);
    vm_compute; reflexivity.
Defined.

(** C10.  For every configuration within the declared domains, hidden
    layer [i] (counted from 1) of the built model has
    [first_layer_units `div` 2^(i-1)] units, and that is at least 8; hence
    every dense layer of the model has at least one unit, with nothing in
    [get_hidden] clamping the width. *)
Theorem sampled_widths_at_least_8
        (hp : HyperParameters) (inputs : list (string * Tensor)) (uid : nat) :
  within_domains hp = true ->
  feature_set inputs = true ->
  exists c m bs',
    config_of hp = Some c
    /\ build_model inputs (mkBuild hp uid) = (Ok m, bs')
    /\ length (dense_layers (outputs m)) = Datatypes.S (Z.to_nat (c_layers c))
    /\ (forall i : nat,
          (1 <= i <= Z.to_nat (c_layers c))%nat ->
          exists d,
            dense_layers (outputs m) !! (i - 1)%nat = Some d
            /\ d_units d = c_first_layer_units c `div` 2 ^ (Z.of_nat i - 1)
            /\ 8 <= d_units d)
    /\ Forall (fun d => 1 <= d_units d) (dense_layers (outputs m)).
Proof.
  intros Hd Hf.
  destruct (within_domains_inv hp Hd) as (c & Hc & Hl & Hu & _).
  destruct hp as [sp vals].
  destruct (build_model_config c inputs sp vals uid
              (feature_set_nonempty _ Hf) Hc) as [sp' Hb].
  exists c, (spec_model uid c inputs). eexists.
  split; [exact Hc|]. split; [exact Hb|].
  rewrite dense_layers_spec_model by assumption.
  assert (forall i : nat, (1 <= i <= Z.to_nat (c_layers c))%nat ->
                          8 <= spec_width (c_first_layer_units c) i) as Hw.
  { intros i Hi.
    assert (i = 1 \/ i = 2 \/ i = 3)%nat as [-> | [-> | ->]] by lia;
      simpl in Hu;
      destruct Hu as [<-|[<-|[<-|[<-|[<-|[<-|[]]]]]]]; vm_compute;
      discriminate. }
  split; [|split].
  - rewrite length_app, length_map, length_seq. simpl. lia.
  - intros i Hi.
    exists (mkDense (uid + i - 1)%nat (spec_width (c_first_layer_units c) i)
                    (Some (c_activation c)) (spec_regularizer c)
                    (spec_regularizer c)).
    split; [|split; [reflexivity | apply Hw; assumption]].
    rewrite lookup_app_l by (rewrite length_map, length_seq; lia).
    rewrite list_lookup_fmap, lookup_seq_lt by lia.
    simpl. repeat f_equal; lia.
  - apply Forall_app. split.
    + apply Forall_forall. intros d Hin.
      apply list_elem_of_fmap in Hin as (i & -> & Hi).
      apply elem_of_seq in Hi. simpl.
      specialize (Hw i). lia.
    + repeat constructor. simpl. lia.
Qed.

Lemma sampled_widths_at_least_8_witness :
  exists c m bs',
    config_of sample_hp = Some c
    /\ build_model sample_inputs (mkBuild sample_hp 0) = (Ok m, bs')
    /\ length (dense_layers (outputs m)) = Datatypes.S (Z.to_nat (c_layers c))
    /\ (forall i : nat,
          (1 <= i <= Z.to_nat (c_layers c))%nat ->
          exists d,
            dense_layers (outputs m) !! (i - 1)%nat = Some d
            /\ d_units d = c_first_layer_units c `div` 2 ^ (Z.of_nat i - 1)
            /\ 8 <= d_units d)
    /\ Forall (fun d => 1 <= d_units d) (dense_layers (outputs m)).
Proof.
  apply (sampled_widths_at_least_8 sample_hp sample_inputs 0);
    vm_compute; reflexivity.
Defined.

Lemma build_on_empty p (inputs : list (string * Tensor)) (uid : nat) :
  is_ok (build_model (p :: inputs) (mkBuild Kt.empty uid)).1 = true
  /\ space (bs_hp (build_model (p :: inputs) (mkBuild Kt.empty uid)).2)
     = spec_search_space
  /\ bs_uid (build_model (p :: inputs) (mkBuild Kt.empty uid)).2
     = Datatypes.S (Datatypes.S uid).
Proof. vm_compute. auto. Qed.

(** C4.  The search space that the tuner collects from [build_model] has
    exactly six dimensions, those of [spec_search_space]: [layers] an integer
    from 1 to 3, [first_layer_units] one of 32, 64, 128, 512, 1024, 2048,
    [dropout] a float from 0.0 to 0.5 in steps of 0.1, [activation] one of
    relu, tanh, sigmoid, elu, selu, [regularization] one of l1, l2, l1_l2,
    none, and [lr] a float between 1e-5 and 1e-2 sampled on a log scale.
    In a model built at a configuration within these domains, the hidden
    dense layers carry no kernel or bias regularizer when [regularization]
    is [none], and the named one otherwise. *)
Theorem declared_search_space
        (inputs : list (string * Tensor)) (args : HyperbandArgs) (w : World) :
  feature_set inputs = true ->
  (exists tuner w',
      Hyperband (build_model inputs) args w = (Ok tuner, w')
      /\ space (tuner_space tuner) = spec_search_space
      /\ length (space (tuner_space tuner)) = 6%nat)
  /\ (forall hp uid,
        within_domains hp = true ->
        exists c m bs',
          config_of hp = Some c
          /\ build_model inputs (mkBuild hp uid) = (Ok m, bs')
          /\ forall (i : nat) d,
               (i < Z.to_nat (c_layers c))%nat ->
               dense_layers (outputs m) !! i = Some d ->
               (c_regularization c = "none" ->
                d_kernel_regularizer d = None
                /\ d_bias_regularizer d = None)
               /\ (c_regularization c <> "none" ->
                   d_kernel_regularizer d = Some (c_regularization c)
                   /\ d_bias_regularizer d = Some (c_regularization c))).
Proof.
  intros Hf. split.
  - destruct inputs as [|p inputs]; [discriminate|].
    pose proof (build_on_empty p inputs (keras_uid w)) as (Hok & Hsp & _).
    unfold Hyperband. rewrite (run_bind (S:=World)). unfold run_build.
    destruct (build_model (p :: inputs) (mkBuild Kt.empty (keras_uid w)))
      as [[m|e] bs]; [|discriminate].
    eexists. eexists. split; [reflexivity|].
    cbn [tuner_space]. simpl in Hsp. rewrite Hsp. split; reflexivity.
  - intros hp uid Hd.
    destruct (within_domains_inv hp Hd) as (c & Hc & _).
    destruct hp as [sp vals].
    destruct (build_model_config c inputs sp vals uid
                (feature_set_nonempty _ Hf) Hc) as [sp' Hb].
    exists c, (spec_model uid c inputs). eexists.
    split; [exact Hc|]. split; [exact Hb|].
    intros i d Hi Hlook.
    rewrite dense_layers_spec_model in Hlook by assumption.
    rewrite lookup_app_l in Hlook by (rewrite length_map, length_seq; lia).
    rewrite list_lookup_fmap, lookup_seq_lt in Hlook by lia.
    injection Hlook as <-. cbn [d_kernel_regularizer d_bias_regularizer].
    unfold spec_regularizer. split.
    + intros ->. split; reflexivity.
    + intros Hne. apply String.eqb_neq in Hne. rewrite Hne. split; reflexivity.
Qed.

Lemma declared_search_space_witness :
  (exists tuner w',
      Hyperband (build_model sample_inputs)
                (mkHyperband (mkObjective "val_auc" "max") 10 3 None 0
                             "playground")
                initial_world
      = (Ok tuner, w')
      /\ space (tuner_space tuner) = spec_search_space
      /\ length (space (tuner_space tuner)) = 6%nat)
  /\ (forall hp uid,
        within_domains hp = true ->
        exists c m bs',
          config_of hp = Some c
          /\ build_model sample_inputs (mkBuild hp uid) = (Ok m, bs')
          /\ forall (i : nat) d,
               (i < Z.to_nat (c_layers c))%nat ->
               dense_layers (outputs m) !! i = Some d ->
               (c_regularization c = "none" ->
                d_kernel_regularizer d = None
                /\ d_bias_regularizer d = None)
               /\ (c_regularization c <> "none" ->
                   d_kernel_regularizer d = Some (c_regularization c)
                   /\ d_bias_regularizer d = Some (c_regularization c))).
Proof.
  apply (declared_search_space sample_inputs _ initial_world). reflexivity.
Defined.

(** ** Running the pipeline *)

Section Worlds.

Lemma run_emit e w : emit e w = (Ok (), after w [e]).
Proof. reflexivity. Qed.

Lemma run_ask {A} (f : list Event -> result A) w : ask f w = (f (trace w), w).
Proof. reflexivity. Qed.

Lemma run_lift {A} (r : result A) (w : World) : lift r w = (r, w).
Proof. reflexivity. Qed.

Lemma run_model_fit lib model args w :
  model_fit lib model args w
  = (fit_outcome lib (trace w ++ [EFit model args]) model args,
     after w [EFit model args]).
Proof.
  unfold model_fit. rewrite (run_bind (S:=World)), run_emit, run_ask.
  destruct (fit_outcome _ _ _ _); reflexivity.
Qed.

Lemma run_run_build {A} (build : M BuildState A) hp w :
  run_build build hp w
  = (match (build (mkBuild hp (keras_uid w))).1 with
     | Ok a => Ok (a, bs_hp (build (mkBuild hp (keras_uid w))).2)
     | Raise e => Raise e
     end,
     with_uid w (bs_uid (build (mkBuild hp (keras_uid w))).2)).
Proof.
  unfold run_build. destruct (build _) as [r bs]. reflexivity.
Qed.

Lemma after_after w evs1 evs2 :
  after (after w evs1) evs2 = after w (evs1 ++ evs2).
Proof. unfold after. simpl. rewrite <- app_assoc. reflexivity. Qed.

Lemma after_nil w : after w [] = w.
Proof. destruct w. unfold after. simpl. rewrite app_nil_r. reflexivity. Qed.

(** *** Footprints *)

Lemma appends_ret {A} P (Q : A -> Prop) (a : A) : Q a -> appends P Q (mret a).
Proof.
  intros HQ w. simpl. repeat split.
  - exists []. rewrite app_nil_r. auto.
  - intros a' [= <-]. exact HQ.
Qed.

Lemma appends_lift {A} P (Q : A -> Prop) (r : result A) :
  (forall a, r = Ok a -> Q a) -> appends P Q (lift r).
Proof.
  intros HQ w. simpl. repeat split; [|exact HQ].
  exists []. rewrite app_nil_r. auto.
Qed.

Lemma appends_ask {A} P (f : list Event -> result A) :
  appends P (fun _ => True) (ask f).
Proof.
  intros w. simpl. repeat split. exists []. rewrite app_nil_r. auto.
Qed.

Lemma appends_emit P e : P e -> appends P (fun _ => True) (emit e).
Proof. intros He w. simpl. repeat split. exists [e]. auto. Qed.

Lemma appends_run_build {A} P (build : M BuildState A) hp :
  appends P (fun _ => True) (run_build build hp).
Proof.
  intros w. rewrite run_run_build. simpl. repeat split.
  exists []. rewrite app_nil_r. auto.
Qed.

Lemma appends_bind {A B} P (Q : A -> Prop) (R : B -> Prop)
      (m : M World A) (f : A -> M World B) :
  appends P Q m -> (forall a, Q a -> appends P R (f a)) ->
  appends P R (m ≫= f).
Proof.
  intros Hm Hf w. rewrite (run_bind (S:=World)).
  destruct (Hm w) as (Hd & Hn & (evs & Ht & HP) & HQ).
  destruct (m w) as [[a|e] w1]; simpl in *.
  - destruct (Hf a (HQ a eq_refl) w1) as (Hd' & Hn' & (evs' & Ht' & HP') & HR).
    split; [congruence|]. split; [congruence|]. split; [|exact HR].
    exists (evs ++ evs'). rewrite Ht', Ht, <- app_assoc.
    split; [reflexivity|]. apply Forall_app; auto.
  - repeat split; eauto. discriminate.
Qed.

Lemma appends_for_each {A B} P (Q : B -> Prop) (l : list A)
      (body : A -> B -> M World B) :
  (forall a acc, Q acc -> appends P Q (body a acc)) ->
  forall acc, Q acc -> appends P Q (for_each l body acc).
Proof.
  intros Hb. induction l as [|a l IH]; intros acc Hacc; simpl.
  - apply appends_ret. assumption.
  - eapply appends_bind; eauto.
Qed.

Lemma appends_weaken {A} (P P' : Event -> Prop) (Q Q' : A -> Prop)
      (m : M World A) :
  (forall e, P e -> P' e) -> (forall a, Q a -> Q' a) ->
  appends P Q m -> appends P' Q' m.
Proof.
  intros HP HQ Hm w. destruct (Hm w) as (Hd & Hn & (evs & Ht & Hev) & Hr).
  repeat split; auto. exists evs. split; [assumption|].
  eapply Forall_impl; eauto.
Qed.

Lemma appends_model_fit P lib model args :
  P (EFit model args) -> appends P (fun _ => True) (model_fit lib model args).
Proof.
  intros HP. unfold model_fit. eapply appends_bind.
  - apply appends_emit. eassumption.
  - intros _ _. apply appends_ask.
Qed.

Lemma is_log_log level record : is_log (ELog level record).
Proof. unfold is_log. eauto. Qed.

Lemma appends_log P level record :
  (forall e, is_log e -> P e) ->
  appends P (fun _ => True) (emit (ELog level record)).
Proof. intros H. apply appends_emit, H, is_log_log. Qed.

Lemma appends_Hyperband P inputs args :
  appends P (fun tuner => tuner_args tuner = args)
          (Hyperband (build_model inputs) args).
Proof.
  unfold Hyperband. eapply appends_bind.
  - apply appends_run_build.
  - intros [m hp] _. apply appends_ret. reflexivity.
Qed.

Lemma appends_tuner_search P lib tuner args :
  P (ESearch (tuner_args tuner) args) ->
  appends P (fun tuner' => tuner_args tuner' = tuner_args tuner)
          (tuner_search lib tuner args).
Proof.
  intros HP. unfold tuner_search.
  eapply appends_bind; [apply appends_emit; eassumption|]. intros _ _.
  eapply appends_bind; [apply appends_ask|]. intros trials _.
  apply appends_ret. reflexivity.
Qed.

Lemma search_phase_appends lib train_ds valid_ds inputs cw temp_dir :
  appends (search_event temp_dir train_ds valid_ds cw)
          (fun '(tuner, callbacks, _) =>
             tuner_args tuner = spec_hyperband_args temp_dir
             /\ callbacks = spec_callbacks)
          (search_phase lib train_ds valid_ds inputs cw temp_dir).
Proof.
  unfold search_phase, logger_debug, logger_info.
  eapply appends_bind; [apply appends_log; intros; left; assumption|].
  intros _ _.
  eapply appends_bind; [apply appends_Hyperband|]. intros tuner Ht.
  eapply appends_bind; [apply appends_log; intros; left; assumption|].
  intros _ _.
  eapply appends_bind.
  { apply appends_tuner_search. rewrite Ht. right. reflexivity. }
  intros tuner' Ht'. cbn beta in Ht'. rewrite Ht in Ht'.
  eapply appends_bind; [apply appends_lift; intros; exact I|].
  intros best _.
  eapply appends_bind; [apply appends_log; intros; left; assumption|].
  intros _ _. apply appends_ret. split; [assumption | reflexivity].
Qed.

Lemma retrain_appends lib train_ds valid_ds inputs cw hps :
  appends (retrain_event train_ds valid_ds cw) (fun _ => True)
          (retrain_and_select lib train_ds valid_ds inputs cw
                              spec_callbacks hps).
Proof.
  unfold retrain_and_select, logger_info.
  eapply appends_bind; [apply appends_run_build|]. intros [model hps1] _.
  eapply appends_bind.
  { apply appends_model_fit. right. eexists. reflexivity. }
  intros history _.
  eapply appends_bind; [apply appends_lift; intros; exact I|].
  intros curve _.
  eapply appends_bind; [apply appends_lift; intros; exact I|].
  intros e _.
  eapply appends_bind; [apply appends_log; intros; left; assumption|].
  intros _ _. apply appends_ret. exact I.
Qed.

Lemma train_member_appends lib tv inputs cw best_epoch i acc :
  appends (member_event tv cw best_epoch) (fun _ => True)
          (train_member lib inputs tv cw best_epoch i acc).
Proof.
  destruct acc as [ms hps]. unfold train_member, logger_info.
  eapply appends_bind; [apply appends_log; intros; left; assumption|].
  intros _ _.
  eapply appends_bind; [apply appends_run_build|]. intros [model hps1] _.
  eapply appends_bind.
  { apply appends_model_fit. right. eexists. reflexivity. }
  intros _ _. apply appends_ret. exact I.
Qed.

Lemma train_ensemble_appends lib tv inputs cw best_epoch hps :
  appends (member_event tv cw best_epoch) (fun _ => True)
          (train_ensemble lib tv inputs cw best_epoch hps).
Proof.
  unfold train_ensemble.
  eapply appends_bind.
  - apply (appends_for_each _ (fun _ => True)); [|exact I].
    intros i acc _. apply train_member_appends.
  - intros [ms hp] _. apply appends_ret. exact I.
Qed.

(** *** The scoped temporary directory *)

Lemma run_TemporaryDirectory {A} lib (body : nat -> M World A) w :
  TemporaryDirectory lib body w
  = match mkdtemp_outcome lib (trace w) with
    | Raise e => (Raise e, w)
    | Ok _ =>
        let d := next_dir w in
        let w1 := mkWorld (keras_uid w) (d :: live_dirs w) (Datatypes.S d)
                          (trace w ++ [EMkdtemp d]) in
        ((body d w1).1,
         mkWorld (keras_uid (body d w1).2)
                 (filter (fun d' => d' <> d) (live_dirs (body d w1).2))
                 (next_dir (body d w1).2)
                 (trace (body d w1).2 ++ [ECleanup d]))
    end.
Proof.
  unfold TemporaryDirectory, mkdtemp, finally, cleanup, modify, get, put, ask.
  unfold mbind, M_bind, mret, M_ret. cbv beta.
  destruct (mkdtemp_outcome lib (trace w)) as [[]|e]; [|reflexivity].
  cbv zeta. destruct (body (next_dir w) _) as [r w2]. reflexivity.
Qed.

Lemma filter_fresh (d : nat) (l : list nat) :
  d ∉ l -> filter (fun d' => d' <> d) (d :: l) = l.
Proof.
  intros Hd. rewrite filter_cons_False by (intros H; apply H; reflexivity).
  induction l as [|a l IH]; [reflexivity|].
  apply not_elem_of_cons in Hd as [Hne Hd].
  rewrite filter_cons_True by congruence. rewrite IH by assumption.
  reflexivity.
Qed.

Lemma well_formed_fresh w :
  well_formed w = true -> next_dir w ∉ live_dirs w.
Proof.
  unfold well_formed. intros Hw Hin.
  rewrite forallb_forall in Hw. apply list_elem_of_In in Hin.
  apply Hw, Nat.ltb_lt in Hin. lia.
Qed.

(** The scope of the directory: it is made, the body runs without
    touching it, and it is removed whatever the body's outcome. *)
Lemma TemporaryDirectory_scope {A} (P : nat -> Event -> Prop)
      (Q : nat -> A -> Prop) lib (body : nat -> M World A) w :
  (forall d, appends (P d) (Q d) (body d)) ->
  well_formed w = true ->
  live_dirs (TemporaryDirectory lib body w).2 = live_dirs w
  /\ ((exists e, TemporaryDirectory lib body w = (Raise e, w))
      \/ (exists evs,
             trace (TemporaryDirectory lib body w).2
             = trace w ++ EMkdtemp (next_dir w) :: evs
                       ++ [ECleanup (next_dir w)]
             /\ Forall (P (next_dir w)) evs
             /\ next_dir (TemporaryDirectory lib body w).2
                = Datatypes.S (next_dir w)
             /\ forall a, (TemporaryDirectory lib body w).1 = Ok a ->
                          Q (next_dir w) a)).
Proof.
  intros Hb Hw. rewrite run_TemporaryDirectory.
  destruct (mkdtemp_outcome lib (trace w)) as [[]|e].
  - cbv zeta.
    destruct (Hb (next_dir w)
                 (mkWorld (keras_uid w) (next_dir w :: live_dirs w)
                          (Datatypes.S (next_dir w))
                          (trace w ++ [EMkdtemp (next_dir w)])))
      as (Hd & Hn & (evs & Ht & HP) & HQ).
    cbn [snd fst live_dirs next_dir trace] in *.
    rewrite Hd, Hn, Ht. split.
    + apply filter_fresh, well_formed_fresh, Hw.
    + right. exists evs. rewrite <- !app_assoc. auto.
  - split; [reflexivity|]. left. eauto.
Qed.

End Worlds.

(** ** The trace of [train_model] *)

Section Pipeline.

Lemma ensemble_and_wrap_appends lib tv inputs cw best_epoch hps :
  appends (member_event tv cw best_epoch) (fun _ => True)
    (hypermodels ← train_ensemble lib tv inputs cw best_epoch hps;
     _ ← logger_debug WrappingEnsemble;
     ensemble_model ← lift (wrap_ensemble inputs hypermodels);
     _ ← logger_info ModelTrained;
     mret ensemble_model).
Proof.
  eapply appends_bind; [apply train_ensemble_appends|]. intros ms _.
  unfold logger_debug, logger_info.
  eapply appends_bind; [apply appends_log; intros; left; assumption|].
  intros _ _.
  eapply appends_bind; [apply appends_lift; intros; exact I|].
  intros m _.
  eapply appends_bind; [apply appends_log; intros; left; assumption|].
  intros _ _. apply appends_ret. exact I.
Qed.

Lemma retrain_logs_best_epoch lib train_ds valid_ds inputs cw cbs hps w e hps' :
  (retrain_and_select lib train_ds valid_ds inputs cw cbs hps w).1
  = Ok (e, hps') ->
  exists evs,
    trace (retrain_and_select lib train_ds valid_ds inputs cw cbs hps w).2
    = trace w ++ evs ++ [ELog INFO (BestEpoch e)].
Proof.
  unfold retrain_and_select.
  rewrite (run_bind (S:=World)), run_run_build.
  destruct (build_model inputs _) as [[model|e0] bs]; [|discriminate].
  cbn [fst snd]. rewrite (run_bind (S:=World)), run_model_fit.
  destruct (fit_outcome _ _ _ _) as [history|e0]; [|discriminate].
  rewrite (run_bind (S:=World)), run_lift.
  destruct (getitem history "val_auc") as [curve|e0]; [|discriminate].
  rewrite (run_bind (S:=World)), run_lift.
  destruct (select_best_epoch curve) as [e1|e0]; [|discriminate].
  unfold logger_info. rewrite (run_bind (S:=World)), run_emit.
  cbn [mret M_ret fst snd]. intros [= -> <-].
  eexists [_]. unfold after, with_uid. cbn [trace].
  rewrite <- app_assoc. reflexivity.
Qed.

Lemma scoped_trace (t : list Event) d evs rest :
  (t ++ EMkdtemp d :: evs ++ [ECleanup d]) ++ rest
  = t ++ EMkdtemp d :: evs ++ ECleanup d :: rest.
Proof. rewrite <- app_assoc. simpl. rewrite <- app_assoc. reflexivity. Qed.

(** Every run of [train_model], whatever its outcome: either the
    directory could not be made and nothing happened, or the new events
    are the search inside the scope of the directory, then those of
    Retrain-and-Select, then those of the Ensemble Trainer. *)
Lemma train_model_trace lib train_ds valid_ds tv inputs cw w :
  well_formed w = true ->
  live_dirs (train_model lib train_ds valid_ds tv inputs cw w).2
  = live_dirs w
  /\ ((exists e,
         train_model lib train_ds valid_ds tv inputs cw w = (Raise e, w))
      \/ (exists searching retraining ensembling best_epoch,
            trace (train_model lib train_ds valid_ds tv inputs cw w).2
            = trace w ++ EMkdtemp (next_dir w) :: searching
                      ++ ECleanup (next_dir w) :: retraining ++ ensembling
            /\ Forall (search_event (next_dir w) train_ds valid_ds cw)
                      searching
            /\ Forall (retrain_event train_ds valid_ds cw) retraining
            /\ Forall (member_event tv cw best_epoch) ensembling
            /\ (ensembling <> [] ->
                ELog INFO (BestEpoch best_epoch) ∈ retraining))).
Proof.
  intros Hw.
  pose proof (TemporaryDirectory_scope
                (fun d => search_event d train_ds valid_ds cw) _ lib _ w
                (search_phase_appends lib train_ds valid_ds inputs cw) Hw)
    as (Hlive & Hscope).
  unfold train_model. rewrite (run_bind (S:=World)).
  destruct Hscope as [[e He]|(evs & Ht & Hevs & _ & HQ)].
  { rewrite He. split; [reflexivity|]. left. eauto. }
  destruct (TemporaryDirectory lib _ w) as [[[[tuner cbs] hps]|e] w1];
    cbn [fst snd] in *.
  2:{ split; [assumption|]. right. exists evs, [], [], 0.
      rewrite Ht. repeat split; auto. congruence. }
  destruct (HQ _ eq_refl) as [_ ->].
  rewrite (run_bind (S:=World)).
  pose proof (retrain_appends lib train_ds valid_ds inputs cw hps w1)
    as (Hlive2 & _ & (evs2 & Ht2 & Hevs2) & _).
  pose proof (retrain_logs_best_epoch lib train_ds valid_ds inputs cw
                spec_callbacks hps w1) as Hbest.
  destruct (retrain_and_select lib _ _ _ _ _ hps w1)
    as [[[best_epoch hps2]|e] w2]; cbn [fst snd] in *.
  2:{ split; [congruence|]. right. exists evs, evs2, [], 0.
      rewrite Ht2, Ht, app_nil_r, scoped_trace.
      repeat split; auto. congruence. }
  destruct (Hbest _ _ eq_refl) as [evs2' Hbest'].
  pose proof (ensemble_and_wrap_appends lib tv inputs cw best_epoch hps2 w2)
    as (Hlive3 & _ & (evs3 & Ht3 & Hevs3) & _).
  split; [congruence|]. right. exists evs, evs2, evs3, best_epoch.
  rewrite Ht3, Ht2, Ht, <- app_assoc, scoped_trace.
  repeat split; auto.
  intros _. rewrite Hbest' in Ht2. apply app_inv_head in Ht2. subst evs2.
  apply elem_of_app. right. apply list_elem_of_singleton. reflexivity.
Qed.

End Pipeline.

(** ** Successful runs, phase by phase *)

Section Success.

Ltac bind_emit :=
  rewrite (run_bind (S:=World)), run_emit; cbv beta iota.

Lemma search_phase_ok lib train_ds valid_ds inputs cw d w tuner cbs best w' :
  search_phase lib train_ds valid_ds inputs cw d w
  = (Ok (tuner, cbs, best), w') ->
  exists m0 bs0 trials,
    build_model inputs (mkBuild Kt.empty (keras_uid w)) = (Ok m0, bs0)
    /\ search_outcome lib
         (trace w ++ [ELog DEBUG (UsingTemporaryDirectory d);
                      ELog DEBUG StartingSearch;
                      ESearch (spec_hyperband_args d)
                              (spec_monitored_fit train_ds valid_ds cw)])
         (spec_hyperband_args d) (spec_monitored_fit train_ds valid_ds cw)
       = Ok trials
    /\ tuner = mkTuner (spec_hyperband_args d) (bs_hp bs0) trials
    /\ cbs = spec_callbacks
    /\ unpack1 (get_best_hyperparameters (mkObjective "val_auc" "max")
                                         trials 1) = Ok best
    /\ w' = after (with_uid w (bs_uid bs0))
              [ELog DEBUG (UsingTemporaryDirectory d);
               ELog DEBUG StartingSearch;
               ESearch (spec_hyperband_args d)
                       (spec_monitored_fit train_ds valid_ds cw);
               ELog INFO (BestHyperparameters (values best))].
Proof.
  unfold search_phase, logger_debug, logger_info, Hyperband, tuner_search.
  bind_emit.
  rewrite !(run_bind (S:=World)), run_run_build.
  destruct (build_model inputs _) as [[m0|e0] bs0] eqn:Hb.
  2:{ cbn [fst snd]. discriminate. }
  unfold after at 1 in Hb. cbn [keras_uid] in Hb.
  cbn [fst snd mret M_ret].
  bind_emit. cbn [tuner_args tuner_space tuner_trials].
  rewrite (run_bind (S:=World)). bind_emit.
  rewrite (run_bind (S:=World)), run_ask.
  match goal with
  | |- context [search_outcome lib ?t ?a ?f] =>
      destruct (search_outcome lib t a f) as [trials|e0] eqn:Hs
  end; [|discriminate].
  cbn [mret M_ret]. rewrite (run_bind (S:=World)), run_lift.
  unfold tuner_get_best_hyperparameters.
  cbn [tuner_args tuner_trials objective app].
  destruct (unpack1 _) as [best'|e0] eqn:Hu; [|discriminate].
  bind_emit. cbn [mret M_ret].
  intros [= <- <- <- <-].
  exists m0, bs0, trials.
  split; [reflexivity|]. split.
  { rewrite <- Hs. unfold after, with_uid. cbn [trace].
    rewrite <- !app_assoc. reflexivity. }
  split; [reflexivity|]. split; [reflexivity|]. split; [exact Hu|].
  unfold after, with_uid. cbn. rewrite <- !app_assoc. reflexivity.
Qed.

Lemma retrain_and_select_ok lib train_ds valid_ds inputs cw cbs hps w e hps' w' :
  retrain_and_select lib train_ds valid_ds inputs cw cbs hps w
  = (Ok (e, hps'), w') ->
  exists model bs history curve,
    build_model inputs (mkBuild hps (keras_uid w)) = (Ok model, bs)
    /\ hps' = bs_hp bs
    /\ fit_outcome lib
         (trace w ++ [EFit model (mkFit train_ds (Some valid_ds) 10 1 cw cbs)])
         model (mkFit train_ds (Some valid_ds) 10 1 cw cbs)
       = Ok history
    /\ history !! "val_auc" = Some curve
    /\ select_best_epoch curve = Ok e
    /\ w' = after (with_uid w (bs_uid bs))
              [EFit model (mkFit train_ds (Some valid_ds) 10 1 cw cbs);
               ELog INFO (BestEpoch e)].
Proof.
  unfold retrain_and_select, logger_info.
  rewrite (run_bind (S:=World)), run_run_build.
  destruct (build_model inputs _) as [[model|e0] bs] eqn:Hb;
    cbn [fst snd]; [|discriminate].
  rewrite (run_bind (S:=World)), run_model_fit.
  destruct (fit_outcome _ _ _ _) as [history|e0] eqn:Hfit; [|discriminate].
  rewrite (run_bind (S:=World)), run_lift. unfold getitem.
  destruct (history !! "val_auc") as [curve|] eqn:Hcurve;
    cbv beta iota; [|discriminate].
  rewrite (run_bind (S:=World)), run_lift.
  destruct (select_best_epoch curve) as [e1|e0] eqn:Hsel; [|discriminate].
  bind_emit. cbn [mret M_ret]. intros [= <- <- <-].
  exists model, bs, history, curve.
  repeat split; try assumption; try reflexivity.
  rewrite after_after. reflexivity.
Qed.

(** One turn of the ensemble loop. *)
Lemma run_train_member lib inputs tv cw e i ms hps w :
  train_member lib inputs tv cw e i (ms, hps) w
  = match build_model inputs (mkBuild hps (keras_uid w)) with
    | (Raise ex, bs) =>
        (Raise ex,
         after (with_uid w (bs_uid bs)) [ELog INFO (TrainingHypermodel (i + 1))])
    | (Ok m, bs) =>
        let w' := after (with_uid w (bs_uid bs))
                        [ELog INFO (TrainingHypermodel (i + 1));
                         EFit m (mkFit tv None e 1 cw [])] in
        match fit_outcome lib (trace w') m (mkFit tv None e 1 cw []) with
        | Ok _ => (Ok (ms ++ [m], bs_hp bs), w')
        | Raise ex => (Raise ex, w')
        end
    end.
Proof.
  unfold train_member, logger_info. bind_emit.
  rewrite (run_bind (S:=World)), run_run_build.
  unfold after at 1 2. cbn [keras_uid].
  destruct (build_model inputs _) as [[m|ex] bs]; cbn [fst snd].
  - rewrite (run_bind (S:=World)), run_model_fit. cbv zeta.
    unfold after, with_uid. cbn [trace keras_uid live_dirs next_dir].
    rewrite <- !app_assoc. cbn [app].
    destruct (fit_outcome _ _ _ _); reflexivity.
  - reflexivity.
Qed.

Lemma train_ensemble_ok lib tv inputs cw e hps w ms w' :
  train_ensemble lib tv inputs cw e hps w = (Ok ms, w') ->
  exists m1 bs1 m2 bs2 m3 bs3,
    build_model inputs (mkBuild hps (keras_uid w)) = (Ok m1, bs1)
    /\ build_model inputs (mkBuild (bs_hp bs1) (bs_uid bs1)) = (Ok m2, bs2)
    /\ build_model inputs (mkBuild (bs_hp bs2) (bs_uid bs2)) = (Ok m3, bs3)
    /\ ms = [m1; m2; m3]
    /\ is_ok (fit_outcome lib
                (trace w ++ [ELog INFO (TrainingHypermodel 1);
                             EFit m1 (spec_member_fit tv cw e)])
                m1 (spec_member_fit tv cw e)) = true
    /\ is_ok (fit_outcome lib
                (trace w ++ [ELog INFO (TrainingHypermodel 1);
                             EFit m1 (spec_member_fit tv cw e);
                             ELog INFO (TrainingHypermodel 2);
                             EFit m2 (spec_member_fit tv cw e)])
                m2 (spec_member_fit tv cw e)) = true
    /\ is_ok (fit_outcome lib
                (trace w ++ [ELog INFO (TrainingHypermodel 1);
                             EFit m1 (spec_member_fit tv cw e);
                             ELog INFO (TrainingHypermodel 2);
                             EFit m2 (spec_member_fit tv cw e);
                             ELog INFO (TrainingHypermodel 3);
                             EFit m3 (spec_member_fit tv cw e)])
                m3 (spec_member_fit tv cw e)) = true
    /\ w' = after (with_uid w (bs_uid bs3))
              [ELog INFO (TrainingHypermodel 1);
               EFit m1 (spec_member_fit tv cw e);
               ELog INFO (TrainingHypermodel 2);
               EFit m2 (spec_member_fit tv cw e);
               ELog INFO (TrainingHypermodel 3);
               EFit m3 (spec_member_fit tv cw e)].
Proof.
  unfold train_ensemble, spec_member_fit.
  change (range 3) with [0; 1; 2]. cbn [for_each].
  rewrite (run_bind (S:=World)).
  rewrite (run_bind (S:=World)), run_train_member.
  destruct (build_model inputs (mkBuild hps (keras_uid w)))
    as [[m1|ex] bs1] eqn:Hb1; [|discriminate].
  cbv zeta.
  destruct (fit_outcome lib _ m1 _) as [h1|ex] eqn:H1; [|discriminate].
  rewrite (run_bind (S:=World)), run_train_member.
  unfold after at 1, with_uid at 1. cbn [keras_uid].
  destruct (build_model inputs (mkBuild (bs_hp bs1) (bs_uid bs1)))
    as [[m2|ex] bs2] eqn:Hb2; [|discriminate].
  cbv zeta.
  destruct (fit_outcome lib _ m2 _) as [h2|ex] eqn:H2; [|discriminate].
  rewrite (run_bind (S:=World)), run_train_member.
  unfold after at 1, with_uid at 1. cbn [keras_uid].
  destruct (build_model inputs (mkBuild (bs_hp bs2) (bs_uid bs2)))
    as [[m3|ex] bs3] eqn:Hb3; [|discriminate].
  cbv zeta.
  destruct (fit_outcome lib _ m3 _) as [h3|ex] eqn:H3; [|discriminate].
  cbn [mret M_ret app]. intros [= <- <-].
  unfold after, with_uid in *.
  cbn [trace keras_uid live_dirs next_dir] in *.
  rewrite <- ?app_assoc in *. cbn [app] in *.
  change (0 + 1) with 1 in *. change (1 + 1) with 2 in *.
  change (2 + 1) with 3 in *.
  exists m1, bs1, m2, bs2, m3, bs3.
  rewrite H1, H2, H3. repeat split; reflexivity || assumption.
Qed.

End Success.

(** ** The best trial *)

Section BestTrial.
#[local] Open Scope Q_scope.

Lemma sorted_desc_head (l : list Trial) :
  l <> [] ->
  exists t rest,
    sorted_by_score true l = t :: rest
    /\ t ∈ l
    /\ (forall u, u ∈ l -> score u <= score t).
Proof.
  induction l as [|x l IH]; [congruence|]. intros _.
  destruct l as [|y l].
  - exists x, []. split; [reflexivity|]. split; [left|].
    intros u Hu. apply list_elem_of_singleton in Hu as ->. apply Qle_refl.
  - destruct IH as (t & rest & Hs & Ht & Hmax); [congruence|].
    change (sorted_by_score true (x :: y :: l))
      with (insert_by_score true x (sorted_by_score true (y :: l))).
    rewrite Hs. cbn [insert_by_score].
    destruct (Qle_bool (score t) (score x)) eqn:Hc.
    + apply Qle_bool_iff in Hc.
      exists x, (t :: rest). split; [reflexivity|]. split; [left|].
      intros u Hu. apply elem_of_cons in Hu as [->|Hu]; [apply Qle_refl|].
      apply Qle_trans with (score t); auto.
    + assert (score x < score t) as Hlt.
      { apply Qnot_le_lt. intros H. apply Qle_bool_iff in H. congruence. }
      exists t, (insert_by_score true x rest).
      split; [reflexivity|]. split; [right; exact Ht|].
      intros u Hu. apply elem_of_cons in Hu as [->|Hu]; auto.
      apply Qlt_le_weak. assumption.
Qed.


Lemma best_hyperparameters_exists (trials : list Trial) t :
  t ∈ trials -> status t = COMPLETED ->
  exists best,
    unpack1 (get_best_hyperparameters (mkObjective "val_auc" "max") trials 1)
    = Ok best.
Proof.
  intros Ht Hst.
  unfold get_best_hyperparameters, get_best_trials.
  change (bool_decide (direction (mkObjective "val_auc" "max") = "max"))
    with true.
  destruct (sorted_desc_head
              (filter (fun t => is_completed (status t) = true) trials))
    as (b & rest & Hs & _).
  - intros Hnil.
    assert (t ∈ filter (fun t => is_completed (status t) = true) trials) as Hin
        by (apply list_elem_of_filter; split;
            [rewrite Hst; reflexivity | assumption]).
    rewrite Hnil in Hin. inversion Hin.
  - rewrite Hs. cbn. eauto.
Qed.

End BestTrial.

(** ** A successful run of [train_model] *)

Section WholeRun.

Lemma train_model_ok lib train_ds valid_ds tv inputs cw w ens w' :
  train_model lib train_ds valid_ds tv inputs cw w = (Ok ens, w') ->
  exists tuner best w1 e hps2 w2 ms w3,
    search_phase lib train_ds valid_ds inputs cw (next_dir w)
      (mkWorld (keras_uid w) (next_dir w :: live_dirs w)
               (Datatypes.S (next_dir w))
               (trace w ++ [EMkdtemp (next_dir w)]))
    = (Ok (tuner, spec_callbacks, best), w1)
    /\ retrain_and_select lib train_ds valid_ds inputs cw
         spec_callbacks best
         (mkWorld (keras_uid w1)
                  (filter (fun d => d <> next_dir w) (live_dirs w1))
                  (next_dir w1) (trace w1 ++ [ECleanup (next_dir w)]))
       = (Ok (e, hps2), w2)
    /\ train_ensemble lib tv inputs cw e hps2 w2 = (Ok ms, w3)
    /\ wrap_ensemble inputs ms = Ok ens
    /\ w' = after w3 [ELog DEBUG WrappingEnsemble; ELog INFO ModelTrained].
Proof.
  unfold train_model. rewrite (run_bind (S:=World)), run_TemporaryDirectory.
  destruct (mkdtemp_outcome lib (trace w)) as [[]|ex]; [|discriminate].
  cbv zeta.
  pose proof (search_phase_appends lib train_ds valid_ds inputs cw
                (next_dir w)
                (mkWorld (keras_uid w) (next_dir w :: live_dirs w)
                         (Datatypes.S (next_dir w))
                         (trace w ++ [EMkdtemp (next_dir w)])))
    as (_ & _ & _ & HQ).
  destruct (search_phase lib train_ds valid_ds inputs cw (next_dir w) _)
    as [[[[tuner cbs] best]|ex] w1]; cbn [fst snd] in *; [|discriminate].
  destruct (HQ _ eq_refl) as [_ ->].
  rewrite (run_bind (S:=World)).
  destruct (retrain_and_select lib _ _ _ _ _ best _)
    as [[[e hps2]|ex] w2] eqn:Hr; [|discriminate].
  rewrite (run_bind (S:=World)).
  destruct (train_ensemble lib tv inputs cw e hps2 w2)
    as [[ms|ex] w3] eqn:He; [|discriminate].
  unfold logger_debug, logger_info.
  rewrite (run_bind (S:=World)), run_emit. cbv beta iota.
  rewrite (run_bind (S:=World)), run_lift.
  destruct (wrap_ensemble inputs ms) as [ens'|ex] eqn:Hwrap; [|discriminate].
  rewrite (run_bind (S:=World)), run_emit. cbv beta iota.
  cbn [mret M_ret]. intros [= <- <-].
  exists tuner, best, w1, e, hps2, w2, ms, w3.
  rewrite after_after. repeat split; reflexivity || assumption.
Qed.

(** The trace of a run that returns a model. *)
Lemma train_model_golden_trace lib train_ds valid_ds tv inputs cw w ens w' :
  train_model lib train_ds valid_ds tv inputs cw w = (Ok ens, w') ->
  exists best m0 e m1 m2 m3,
    trace w'
    = trace w
      ++ [EMkdtemp (next_dir w);
          ELog DEBUG (UsingTemporaryDirectory (next_dir w));
          ELog DEBUG StartingSearch;
          ESearch (spec_hyperband_args (next_dir w))
                  (spec_monitored_fit train_ds valid_ds cw);
          ELog INFO (BestHyperparameters (values best));
          ECleanup (next_dir w);
          EFit m0 (spec_monitored_fit train_ds valid_ds cw);
          ELog INFO (BestEpoch e);
          ELog INFO (TrainingHypermodel 1);
          EFit m1 (spec_member_fit tv cw e);
          ELog INFO (TrainingHypermodel 2);
          EFit m2 (spec_member_fit tv cw e);
          ELog INFO (TrainingHypermodel 3);
          EFit m3 (spec_member_fit tv cw e);
          ELog DEBUG WrappingEnsemble;
          ELog INFO ModelTrained]
    /\ wrap_ensemble inputs [m1; m2; m3] = Ok ens.
Proof.
  intros H.
  destruct (train_model_ok _ _ _ _ _ _ _ _ _ H)
    as (tuner & best & w1 & e & hps2 & w2 & ms & w3
        & Hs & Hr & He & Hwrap & ->).
  apply search_phase_ok in Hs
    as (mi & bsi & trials & _ & _ & _ & _ & _ & Hw1).
  apply retrain_and_select_ok in Hr
    as (m0 & bs & history & curve & _ & _ & _ & _ & _ & Hw2).
  apply train_ensemble_ok in He
    as (m1 & bs1 & m2 & bs2 & m3 & bs3 & _ & _ & _ & Hms & _ & _ & _ & Hw3).
  subst w3 w2 w1 ms.
  exists best, m0, e, m1, m2, m3. split; [|exact Hwrap].
  unfold after, with_uid, spec_monitored_fit. cbn [trace].
  rewrite <- !app_assoc. reflexivity.
Qed.

End WholeRun.

(** ** Retrain-and-Select and the Ensemble Wrapper *)

Lemma select_best_epoch_spec (curve : list Q) :
  curve <> [] ->
  exists e m,
    select_best_epoch curve = Ok e
    /\ 1 <= e <= Z.of_nat (length curve)
    /\ curve !! Z.to_nat (e - 1) = Some m
    /\ (forall j x, curve !! j = Some x -> (x <= m)%Q)
    /\ (forall j x, Z.of_nat j < e - 1 -> curve !! j = Some x -> (x < m)%Q).
Proof.
  intros Hne.
  destruct (argmax_spec curve Hne) as (i & m & Hi & Him & Hmax & Hfirst).
  exists (Z.of_nat i + 1), m. unfold select_best_epoch. rewrite Hi.
  replace (Z.of_nat i + 1 - 1) with (Z.of_nat i) by lia.
  rewrite Nat2Z.id.
  split; [reflexivity|]. split.
  - apply lookup_lt_Some in Him. lia.
  - split; [assumption|]. split; [assumption|].
    intros j x Hj. apply Hfirst. lia.
Qed.

(** C1.  When the fit of Retrain-and-Select records a non-empty validation
    AUC curve, the phase returns and logs as best epoch the 1-indexed
    position of the first occurrence of the curve's maximum: the value
    there is at least every value of the curve and strictly above every
    earlier one.  For the curve 0.5, 0.7, 0.9, 0.9, 0.6 it is 3. *)
Theorem best_epoch_is_first_maximum
        (lib : Library) (train_ds valid_ds : Dataset)
        (inputs : list (string * Tensor)) (cw : ClassWeight)
        (cbs : list Callback) (hps : HyperParameters) (w : World)
        (model : Model) (bs : BuildState) (history : History)
        (curve : list Q) :
  build_model inputs (mkBuild hps (keras_uid w)) = (Ok model, bs) ->
  fit_outcome lib
    (trace w ++ [EFit model (mkFit train_ds (Some valid_ds) 10 1 cw cbs)])
    model (mkFit train_ds (Some valid_ds) 10 1 cw cbs)
  = Ok history ->
  history !! "val_auc" = Some curve ->
  curve <> [] ->
  exists e m w',
    retrain_and_select lib train_ds valid_ds inputs cw cbs hps w
    = (Ok (e, bs_hp bs), w')
    /\ last (trace w') = Some (ELog INFO (BestEpoch e))
    /\ select_best_epoch curve = Ok e
    /\ 1 <= e <= Z.of_nat (length curve)
    /\ curve !! Z.to_nat (e - 1) = Some m
    /\ (forall j x, curve !! j = Some x -> (x <= m)%Q)
    /\ (forall j x, Z.of_nat j < e - 1 -> curve !! j = Some x -> (x < m)%Q)
    /\ (curve = [0.5; 0.7; 0.9; 0.9; 0.6]%Q -> e = 3).
Proof.
  intros Hb Hfit Hcurve Hne.
  destruct (select_best_epoch_spec curve Hne)
    as (e & m & Hsel & Hrange & Hm & Hmax & Hfirst).
  exists e, m. eexists. split.
  - unfold retrain_and_select, logger_info.
    rewrite (run_bind (S:=World)), run_run_build, Hb. cbn [fst snd].
    rewrite (run_bind (S:=World)), run_model_fit.
    change (trace (with_uid w (bs_uid bs))) with (trace w). rewrite Hfit.
    rewrite (run_bind (S:=World)), run_lift. unfold getitem. rewrite Hcurve.
    rewrite (run_bind (S:=World)), run_lift, Hsel.
    rewrite (run_bind (S:=World)), run_emit. reflexivity.
  - split.
    { unfold after. cbn [trace]. rewrite last_snoc. reflexivity. }
    repeat (split; [assumption|]).
    intros ->. vm_compute in Hsel. congruence.
Qed.

Lemma best_epoch_is_first_maximum_witness :
  exists e m w',
    retrain_and_select sample_library sample_train_ds sample_valid_ds
      sample_inputs sample_class_weight spec_callbacks other_hp
      initial_world
    = (Ok (e, other_hp), w')
    /\ last (trace w') = Some (ELog INFO (BestEpoch e))
    /\ select_best_epoch [0.5; 0.7; 0.9; 0.9; 0.6]%Q = Ok e
    /\ 1 <= e <= 5
    /\ [0.5; 0.7; 0.9; 0.9; 0.6]%Q !! Z.to_nat (e - 1) = Some m
    /\ (forall j x, [0.5; 0.7; 0.9; 0.9; 0.6]%Q !! j = Some x -> (x <= m)%Q)
    /\ (forall j x, Z.of_nat j < e - 1 ->
                    [0.5; 0.7; 0.9; 0.9; 0.6]%Q !! j = Some x -> (x < m)%Q)
    /\ ([0.5; 0.7; 0.9; 0.9; 0.6]%Q = [0.5; 0.7; 0.9; 0.9; 0.6]%Q -> e = 3).
Proof.
  refine (best_epoch_is_first_maximum sample_library sample_train_ds
            sample_valid_ds sample_inputs sample_class_weight
            spec_callbacks other_hp initial_world
            (spec_model 0 (mkConfig 1 64 0.0 "relu" "l2" 1e-2) sample_inputs)
            (mkBuild other_hp 2) sample_history
            [0.5; 0.7; 0.9; 0.9; 0.6]%Q _ _ _ _).
  - vm_compute. reflexivity.
  - reflexivity.
  - vm_compute. reflexivity.
  - discriminate.
Defined.



(** ** The Search Controller *)



(** ** The pipeline: callbacks, ensemble members, workspace *)

Section EventKinds.

Lemma search_event_kind d train_ds valid_ds cw e :
  search_event d train_ds valid_ds cw e ->
  is_dir_event e = false /\ is_fit_event e = false.
Proof. intros [(l & r & ->)| ->]; split; reflexivity. Qed.

Lemma retrain_event_kind train_ds valid_ds cw e :
  retrain_event train_ds valid_ds cw e ->
  is_dir_event e = false /\ is_search_event e = false.
Proof. intros [(l & r & ->)|[m ->]]; split; reflexivity. Qed.

Lemma member_event_kind tv cw be e :
  member_event tv cw be e ->
  is_dir_event e = false /\ is_search_event e = false.
Proof. intros [(l & r & ->)|[m ->]]; split; reflexivity. Qed.

Lemma dense_uids_spec_model (c : Config) uid inputs :
  feature_set inputs = true ->
  map d_uid (dense_layers (outputs (spec_model uid c inputs)))
  = seq uid (Datatypes.S (Z.to_nat (c_layers c))).
Proof.
  intros Hf. rewrite dense_layers_spec_model by assumption.
  rewrite map_app, map_map. cbn [map d_uid].
  rewrite seq_S. f_equal.
  rewrite <- seq_shift, map_map.
  transitivity (map (fun i => uid + i)%nat (seq 0 (Z.to_nat (c_layers c)))).
  - apply map_ext. intros i. lia.
  - rewrite (fmap_add_seq uid 0), Nat.add_0_r. reflexivity.
Qed.

End EventKinds.

(** C8.  In every run of [train_model] from a well-formed world, whatever
    the outcome, the temporary directories that exist at the end are those
    that existed at the start.  Either the directory could not be made and
    nothing else happened, or the trace shows the directory made, the
    events of the search, the directory removed, and only then the events
    of the later phases: the search makes no fit of the later phases and
    touches no directory, and nothing after the removal is a search or
    touches a directory.  When the scope of the directory is left by an
    exception, [train_model] ends with that exception in the world the
    removal has left. *)
Theorem workspace_released_on_every_exit
        (lib : Library) (train_ds valid_ds tv : Dataset)
        (inputs : list (string * Tensor)) (cw : ClassWeight) (w : World) :
  well_formed w = true ->
  live_dirs (train_model lib train_ds valid_ds tv inputs cw w).2 = live_dirs w
  /\ ((exists e,
         train_model lib train_ds valid_ds tv inputs cw w = (Raise e, w))
      \/ (exists searching later,
            trace (train_model lib train_ds valid_ds tv inputs cw w).2
            = trace w ++ EMkdtemp (next_dir w) :: searching
                      ++ ECleanup (next_dir w) :: later
            /\ (next_dir w ∉ live_dirs w)
            /\ Forall (fun e => is_dir_event e = false
                                /\ is_fit_event e = false) searching
            /\ Forall (fun e => is_dir_event e = false
                                /\ is_search_event e = false) later))
  /\ (forall e w1,
        TemporaryDirectory lib
          (search_phase lib train_ds valid_ds inputs cw) w = (Raise e, w1) ->
        train_model lib train_ds valid_ds tv inputs cw w = (Raise e, w1)
        /\ live_dirs w1 = live_dirs w).
Proof.
  intros Hw.
  destruct (train_model_trace lib train_ds valid_ds tv inputs cw w Hw)
    as [Hlive Hshape].
  split; [exact Hlive|]. split.
  - destruct Hshape as [He|(s & r & m & be & Ht & Hs & Hr & Hm & _)];
      [left; exact He|].
    right. exists s, (r ++ m). split; [exact Ht|].
    split; [apply well_formed_fresh; exact Hw|]. split.
    + eapply Forall_impl; [exact Hs|]. apply search_event_kind.
    + apply Forall_app. split.
      * eapply Forall_impl; [exact Hr|]. apply retrain_event_kind.
      * eapply Forall_impl; [exact Hm|]. apply member_event_kind.
  - intros e w1 Hscope.
    pose proof (TemporaryDirectory_scope
                  (fun d => search_event d train_ds valid_ds cw) _ lib _ w
                  (search_phase_appends lib train_ds valid_ds inputs cw) Hw)
      as [Hl _].
    rewrite Hscope in Hl. split; [|exact Hl].
    unfold train_model. rewrite (run_bind (S:=World)), Hscope. reflexivity.
Qed.

Lemma workspace_released_on_every_exit_witness :
  live_dirs (train_model sample_library sample_train_ds sample_valid_ds
               sample_train_and_valid_ds sample_inputs sample_class_weight
               initial_world).2 = []
  /\ live_dirs (train_model failing_library sample_train_ds sample_valid_ds
                  sample_train_and_valid_ds sample_inputs sample_class_weight
                  initial_world).2 = [].
Proof.
  split.
  - apply (workspace_released_on_every_exit sample_library sample_train_ds
             sample_valid_ds sample_train_and_valid_ds sample_inputs
             sample_class_weight initial_world).
    reflexivity.
  - apply (workspace_released_on_every_exit failing_library sample_train_ds
             sample_valid_ds sample_train_and_valid_ds sample_inputs
             sample_class_weight initial_world).
    reflexivity.
Defined.




Section Ensemble.

(** One turn of the ensemble loop at a configuration. *)
Lemma run_train_member_config lib inputs tv cw e i ms sp vals c w :
  inputs <> [] ->
  config_of (mkHP sp vals) = Some c ->
  exists sp',
    train_member lib inputs tv cw e i (ms, mkHP sp vals) w
    = match fit_outcome lib
              (trace w ++ [ELog INFO (TrainingHypermodel (i + 1));
                           EFit (spec_model (keras_uid w) c inputs)
                                (mkFit tv None e 1 cw [])])
              (spec_model (keras_uid w) c inputs) (mkFit tv None e 1 cw [])
      with
      | Ok _ =>
          (Ok (ms ++ [spec_model (keras_uid w) c inputs], mkHP sp' vals),
           mkWorld (Datatypes.S (keras_uid w + Z.to_nat (c_layers c)))
                   (live_dirs w) (next_dir w)
                   (trace w ++ [ELog INFO (TrainingHypermodel (i + 1));
                                EFit (spec_model (keras_uid w) c inputs)
                                     (mkFit tv None e 1 cw [])]))
      | Raise ex =>
          (Raise ex,
           mkWorld (Datatypes.S (keras_uid w + Z.to_nat (c_layers c)))
                   (live_dirs w) (next_dir w)
                   (trace w ++ [ELog INFO (TrainingHypermodel (i + 1));
                                EFit (spec_model (keras_uid w) c inputs)
                                     (mkFit tv None e 1 cw [])]))
      end.
Proof.
  intros Hne Hc.
  destruct (build_model_config c inputs sp vals (keras_uid w) Hne Hc)
    as [sp' Hb].
  exists sp'. rewrite run_train_member, Hb. cbv zeta.
  unfold after, with_uid. cbn [trace keras_uid live_dirs next_dir bs_uid bs_hp].
  destruct (fit_outcome _ _ _ _); reflexivity.
Qed.

(** The three turns. *)
Lemma train_ensemble_config lib tv inputs cw e sp vals c w :
  inputs <> [] ->
  config_of (mkHP sp vals) = Some c ->
  let L := Z.to_nat (c_layers c) in
  let u2 := Datatypes.S (keras_uid w + L) in
  let u3 := Datatypes.S (u2 + L) in
  let u4 := Datatypes.S (u3 + L) in
  let m1 := spec_model (keras_uid w) c inputs in
  let m2 := spec_model u2 c inputs in
  let m3 := spec_model u3 c inputs in
  let args := mkFit tv None e 1 cw [] in
  let t1 := trace w ++ [ELog INFO (TrainingHypermodel 1); EFit m1 args] in
  let t2 := t1 ++ [ELog INFO (TrainingHypermodel 2); EFit m2 args] in
  let t3 := t2 ++ [ELog INFO (TrainingHypermodel 3); EFit m3 args] in
  train_ensemble lib tv inputs cw e (mkHP sp vals) w
  = match fit_outcome lib t1 m1 args with
    | Raise ex => (Raise ex, mkWorld u2 (live_dirs w) (next_dir w) t1)
    | Ok _ =>
        match fit_outcome lib t2 m2 args with
        | Raise ex => (Raise ex, mkWorld u3 (live_dirs w) (next_dir w) t2)
        | Ok _ =>
            match fit_outcome lib t3 m3 args with
            | Raise ex =>
                (Raise ex, mkWorld u4 (live_dirs w) (next_dir w) t3)
            | Ok _ =>
                (Ok [m1; m2; m3],
                 mkWorld u4 (live_dirs w) (next_dir w) t3)
            end
        end
    end.
Proof.
  intros Hne Hc. cbv zeta.
  unfold train_ensemble. change (range 3) with [0; 1; 2]. cbn [for_each].
  rewrite (run_bind (S:=World)), (run_bind (S:=World)).
  destruct (run_train_member_config lib inputs tv cw e 0 [] sp vals c w
              Hne Hc) as [sp1 E1].
  rewrite E1. change (0 + 1) with 1.
  destruct (fit_outcome lib _ _ _) as [h1|ex]; [|reflexivity].
  rewrite (run_bind (S:=World)).
  destruct (run_train_member_config lib inputs tv cw e 1
              ([] ++ [spec_model (keras_uid w) c inputs]) sp1 vals c
              (mkWorld (Datatypes.S (keras_uid w + Z.to_nat (c_layers c)))
                 (live_dirs w) (next_dir w)
                 (trace w ++ [ELog INFO (TrainingHypermodel 1);
                              EFit (spec_model (keras_uid w) c inputs)
                                   (mkFit tv None e 1 cw [])]))
              Hne Hc) as [sp2 E2].
  rewrite E2. change (1 + 1) with 2. cbn [keras_uid trace live_dirs next_dir].
  destruct (fit_outcome lib _ _ _) as [h2|ex]; [|reflexivity].
  rewrite (run_bind (S:=World)).
  match goal with
  | |- context [train_member lib inputs tv cw e 2 (?ms, _) ?w2] =>
      destruct (run_train_member_config lib inputs tv cw e 2 ms sp2 vals c
                  w2 Hne Hc) as [sp3 E3]
  end.
  rewrite E3. change (2 + 1) with 3. cbn [keras_uid trace live_dirs next_dir].
  destruct (fit_outcome lib _ _ _) as [h3|ex]; reflexivity.
Qed.

End Ensemble.

(** C7.  At a best configuration within the declared domains, the Ensemble
    Trainer builds three Candidate Models of that configuration, one after
    the other, each from dense layers of its own (no layer, hence no
    weight, is shared between members or reused); it fits each on the
    combined data for exactly [best_epoch] epochs with the class weights,
    no validation data and an empty callback list.  When the three fits
    succeed it returns the three models in the order they were built.
    When the fit of a member raises, the trainer raises the same
    exception at once — no later member is built or fitted and no list is
    returned — so that [train_model] returns an ensemble only if it wraps
    exactly three members, each fitted for the best epoch that
    Retrain-and-Select logged. *)
Theorem ensemble_members_trained
        (lib : Library) (tv : Dataset) (inputs : list (string * Tensor))
        (cw : ClassWeight) (best_epoch : Z) (best_hps : HyperParameters)
        (w : World) :
  within_domains best_hps = true ->
  feature_set inputs = true ->
  exists c,
    config_of best_hps = Some c
    /\ let L := Z.to_nat (c_layers c) in
       let m1 := spec_model (keras_uid w) c inputs in
       let m2 := spec_model (Datatypes.S (keras_uid w + L)) c inputs in
       let m3 := spec_model
                   (Datatypes.S (Datatypes.S (keras_uid w + L) + L)) c inputs in
       let args := mkFit tv None best_epoch 1 cw [] in
       let t1 := trace w ++ [ELog INFO (TrainingHypermodel 1); EFit m1 args] in
       let t2 := t1 ++ [ELog INFO (TrainingHypermodel 2); EFit m2 args] in
       let t3 := t2 ++ [ELog INFO (TrainingHypermodel 3); EFit m3 args] in
       let run := train_ensemble lib tv inputs cw best_epoch best_hps w in
       NoDup (map d_uid
                (concat (map (fun m => dense_layers (outputs m)) [m1; m2; m3])))
       /\ (is_ok (fit_outcome lib t1 m1 args) = true ->
           is_ok (fit_outcome lib t2 m2 args) = true ->
           is_ok (fit_outcome lib t3 m3 args) = true ->
           run.1 = Ok [m1; m2; m3] /\ trace run.2 = t3)
       /\ (forall ex,
             fit_outcome lib t1 m1 args = Raise ex ->
             run.1 = Raise ex /\ trace run.2 = t1)
       /\ (forall ex,
             is_ok (fit_outcome lib t1 m1 args) = true ->
             fit_outcome lib t2 m2 args = Raise ex ->
             run.1 = Raise ex /\ trace run.2 = t2)
       /\ (forall ex,
             is_ok (fit_outcome lib t1 m1 args) = true ->
             is_ok (fit_outcome lib t2 m2 args) = true ->
             fit_outcome lib t3 m3 args = Raise ex ->
             run.1 = Raise ex /\ trace run.2 = t3)
       /\ (forall train_ds valid_ds w0 ens w0',
             train_model lib train_ds valid_ds tv inputs cw w0 = (Ok ens, w0') ->
             exists a b c' e,
               wrap_ensemble inputs [a; b; c'] = Ok ens
               /\ ELog INFO (BestEpoch e) ∈ trace w0'
               /\ EFit a (mkFit tv None e 1 cw []) ∈ trace w0'
               /\ EFit b (mkFit tv None e 1 cw []) ∈ trace w0'
               /\ EFit c' (mkFit tv None e 1 cw []) ∈ trace w0').
Proof.
  intros Hd Hf.
  destruct (within_domains_inv best_hps Hd) as (c & Hc & _).
  exists c. split; [exact Hc|].
  destruct best_hps as [sp vals].
  pose proof (feature_set_nonempty _ Hf) as Hne.
  pose proof (train_ensemble_config lib tv inputs cw best_epoch sp vals c w
                Hne Hc) as Hrun.
  cbv zeta in *.
  split.
  { cbn [map concat]. rewrite app_nil_r, !map_app.
    rewrite !dense_uids_spec_model by assumption.
    set (L := Z.to_nat (c_layers c)).
    replace (Datatypes.S (Datatypes.S (keras_uid w + L) + L))
      with (keras_uid w + Datatypes.S L + Datatypes.S L)%nat by lia.
    replace (Datatypes.S (keras_uid w + L))
      with (keras_uid w + Datatypes.S L)%nat by lia.
    rewrite <- !seq_app. apply NoDup_seq. }
  rewrite Hrun. clear Hrun.
  split; [|split; [|split; [|split]]].
  - intros H1 H2 H3.
    destruct (fit_outcome lib _ _ _); [|discriminate].
    destruct (fit_outcome lib _ _ _); [|discriminate].
    destruct (fit_outcome lib _ _ _); [|discriminate].
    split; reflexivity.
  - intros ex ->. split; reflexivity.
  - intros ex H1 ->.
    destruct (fit_outcome lib _ _ _); [|discriminate]. split; reflexivity.
  - intros ex H1 H2 ->.
    destruct (fit_outcome lib _ _ _); [|discriminate].
    destruct (fit_outcome lib _ _ _); [|discriminate]. split; reflexivity.
  - intros train_ds valid_ds w0 ens w0' H.
    destruct (train_model_golden_trace _ _ _ _ _ _ _ _ _ H)
      as (best & m0 & e & m1 & m2 & m3 & Hgold & Hwrap).
    exists m1, m2, m3, e. split; [exact Hwrap|].
    rewrite Hgold. unfold spec_member_fit.
    repeat split; apply elem_of_app; right;
      repeat first [left; reflexivity | right].
Qed.

Lemma ensemble_members_trained_witness :
  (train_ensemble sample_library sample_train_and_valid_ds sample_inputs
                  sample_class_weight 3 sample_hp initial_world).1
  = Ok [spec_model 0 (mkConfig 3 32 0.2 "tanh" "none" 1e-3) sample_inputs;
        spec_model 4 (mkConfig 3 32 0.2 "tanh" "none" 1e-3) sample_inputs;
        spec_model 8 (mkConfig 3 32 0.2 "tanh" "none" 1e-3) sample_inputs]
  /\ (train_ensemble failing_library sample_train_and_valid_ds sample_inputs
                     sample_class_weight 3 sample_hp initial_world).1
     = Raise (ExternalError 7).
Proof.
  split.
  - destruct (ensemble_members_trained sample_library
                sample_train_and_valid_ds sample_inputs sample_class_weight 3
                sample_hp initial_world)
      as (c & Hc & _ & Hok & _); [reflexivity | reflexivity |].
    vm_compute in Hc. injection Hc as <-.
    apply Hok; reflexivity.
  - destruct (ensemble_members_trained failing_library
                sample_train_and_valid_ds sample_inputs sample_class_weight 3
                sample_hp initial_world)
      as (c & Hc & _ & _ & _ & Hfail & _); [reflexivity | reflexivity |].
    vm_compute in Hc. injection Hc as <-.
    apply Hfail; reflexivity.
Defined.

(** ** Datasets and reproducibility *)

Section Datasets.







Lemma well_formed_after w evs :
  well_formed (after w evs) = well_formed w.
Proof. reflexivity. Qed.


End Datasets.




(* ===================================================================== *)
(** * Further properties of the code *)
(* ===================================================================== *)

(** ** Every successful build *)

Lemma retrieve_ok_inv (d : HyperParameter) (hp hp' : HyperParameters) v :
  retrieve d hp = (Ok v, hp') ->
  values hp' !! hp_name d = Some v
  /\ (forall n, n <> hp_name d -> values hp' !! n = values hp !! n)
  /\ (values hp !! hp_name d = Some v
      \/ values hp !! hp_name d = None /\ hp_default d = Ok v).
Proof.
  unfold retrieve, register.
  destruct (exists_ (hp_name d) hp).
  - destruct (values hp !! hp_name d) as [v0|] eqn:Hv; [|discriminate].
    intros [= <- <-]. auto.
  - destruct (values hp !! hp_name d) as [v0|] eqn:Hv.
    + intros [= <- <-]. cbn [values]. auto.
    + destruct (hp_default d) as [v0|e] eqn:Hd; [|discriminate].
      intros [= <- <-]. cbn [values space].
      split; [apply lookup_insert_eq|]. split; [|auto].
      intros n Hn. apply lookup_insert_ne. congruence.
Qed.

Lemma hp_read_inv {A} (conv : Kt.Value -> result A) d bs a bs' :
  (with_hp (retrieve d) ≫= (fun v => lift (conv v))) bs = (Ok a, bs') ->
  exists v,
    retrieve d (bs_hp bs) = (Ok v, bs_hp bs')
    /\ conv v = Ok a
    /\ bs_uid bs' = bs_uid bs.
Proof.
  rewrite (run_bind (S:=BuildState)). unfold with_hp, zoom.
  destruct (retrieve d (bs_hp bs)) as [[v|e] hp'] eqn:Hr; [|discriminate].
  unfold lift. destruct (conv v) as [a'|e] eqn:Hc; [|discriminate].
  intros [= <- <-]. exists v. auto.
Qed.

Tactic Notation "build_step" hyp(H) ident(a) ident(bs) ident(E) :=
  rewrite (run_bind (S:=BuildState)) in H;
  match type of H with
  | (match ?t with (_, _) => _ end) = _ =>
      destruct t as [[a|?] bs] eqn:E; [|discriminate H]
  end.

Lemma get_hidden_ok_inv (x : Tensor) hp uid h bs :
  get_hidden x (mkBuild hp uid) = (Ok h, bs) ->
  exists l u d a r vl vu vd va vr,
    values (bs_hp bs) !! "layers" = Some vl /\ as_int vl = Ok l
    /\ values (bs_hp bs) !! "first_layer_units" = Some vu /\ as_int vu = Ok u
    /\ values (bs_hp bs) !! "dropout" = Some vd /\ as_float vd = Ok d
    /\ values (bs_hp bs) !! "activation" = Some va /\ as_str va = Ok a
    /\ values (bs_hp bs) !! "regularization" = Some vr /\ as_str vr = Ok r
    /\ (forall lr, h = spec_hidden uid (mkConfig l u d a r lr) x)
    /\ bs_uid bs = (uid + Z.to_nat l)%nat
    /\ (forall n v, values hp !! n = Some v -> values (bs_hp bs) !! n = Some v)
    /\ Forall (fun d => values hp !! hp_name d = None ->
                        exists v, hp_default d = Ok v
                                  /\ values (bs_hp bs) !! hp_name d = Some v)
              (take 5 spec_search_space)
    /\ (forall n, n ∉ map hp_name (take 5 spec_search_space) ->
                  values (bs_hp bs) !! n = values hp !! n).
Proof.
  unfold get_hidden, hp_int, hp_float, hp_str, Kt.Int, Kt.Float, Kt.Choice.
  intros H.
  build_step H l bs1 E1. apply hp_read_inv in E1 as (vl & R1 & C1 & U1).
  build_step H u bs2 E2. apply hp_read_inv in E2 as (vu & R2 & C2 & U2).
  build_step H d bs3 E3. apply hp_read_inv in E3 as (vd & R3 & C3 & U3).
  build_step H a bs4 E4. apply hp_read_inv in E4 as (va & R4 & C4 & U4).
  build_step H r bs5 E5. apply hp_read_inv in E5 as (vr & R5 & C5 & U5).
  apply retrieve_ok_inv in R1 as (L1 & O1 & P1).
  apply retrieve_ok_inv in R2 as (L2 & O2 & P2).
  apply retrieve_ok_inv in R3 as (L3 & O3 & P3).
  apply retrieve_ok_inv in R4 as (L4 & O4 & P4).
  apply retrieve_ok_inv in R5 as (L5 & O5 & P5).
  cbn [hp_name bs_hp bs_uid] in *.
  destruct bs5 as [hp5 uid5].
  cbn [bs_hp bs_uid] in *.
  rewrite (run_bind (S:=BuildState)) in H. unfold range in H.
  pose proof (hidden_loop (mkConfig l u d a r 0) hp5 uid5 (Z.to_nat l) 0 x)
    as Hloop.
  cbn [c_dropout c_activation c_first_layer_units c_layers] in Hloop.
  unfold spec_regularizer in Hloop. cbn [c_regularization] in Hloop.
  rewrite Z.pow_0_r, Z.div_1_r, !Nat.add_0_r in Hloop.
  rewrite Hloop in H. cbn [mret M_ret] in H. injection H as <- <-.
  assert (uid5 = uid) as -> by congruence.
  exists l, u, d, a, r, vl, vu, vd, va, vr.
  cbn [bs_hp bs_uid].
  assert (values hp5 !! "layers" = Some vl) as F1
      by (rewrite O5, O4, O3, O2 by discriminate; exact L1).
  assert (values hp5 !! "first_layer_units" = Some vu) as F2
      by (rewrite O5, O4, O3 by discriminate; exact L2).
  assert (values hp5 !! "dropout" = Some vd) as F3
      by (rewrite O5, O4 by discriminate; exact L3).
  assert (values hp5 !! "activation" = Some va) as F4
      by (rewrite O5 by discriminate; exact L4).
  repeat (split; [assumption|]).
  split; [|split; [|split; [|split]]].
  5:{ cbn [take spec_search_space map hp_name]. intros n Hn.
      rewrite !not_elem_of_cons in Hn.
      destruct Hn as (N1 & N2 & N3 & N4 & N5 & _).
      rewrite O5, O4, O3, O2, O1 by assumption. reflexivity. }
  4:{ cbn [take spec_search_space].
      rewrite (O1 "first_layer_units") in P2 by discriminate.
      rewrite (O2 "dropout"), (O1 "dropout") in P3 by discriminate.
      rewrite (O3 "activation"), (O2 "activation"), (O1 "activation") in P4
        by discriminate.
      rewrite (O4 "regularization"), (O3 "regularization"),
        (O2 "regularization"), (O1 "regularization") in P5 by discriminate.
      repeat (constructor; [cbn [hp_name]; intros Hnone; eexists; split;
                            [|eassumption]|]); [..|constructor].
      - destruct P1 as [P1|[_ P1]]; [congruence | exact P1].
      - destruct P2 as [P2|[_ P2]]; [congruence | exact P2].
      - destruct P3 as [P3|[_ P3]]; [congruence | exact P3].
      - destruct P4 as [P4|[_ P4]]; [congruence | exact P4].
      - destruct P5 as [P5|[_ P5]]; [congruence | exact P5]. }
  - intros lr. unfold spec_hidden, spec_regularizer. reflexivity.
  - reflexivity.
  - intros n v Hn.
    assert (forall (hpa hpb : HyperParameters) name w0,
               values hpb !! name = Some w0 ->
               (forall n0, n0 <> name -> values hpb !! n0 = values hpa !! n0) ->
               (values hpa !! name = Some w0
                \/ values hpa !! name = None /\ True) ->
               forall n0 v0, values hpa !! n0 = Some v0 ->
                             values hpb !! n0 = Some v0) as Hmono.
    { intros hpa hpb name w0 Hl Ho Hp n0 v0 Hn0.
      destruct (decide (n0 = name)) as [->|Hne].
      - destruct Hp as [Hp|[Hp _]]; congruence.
      - rewrite Ho by assumption. assumption. }
    eapply Hmono; [exact L5 | exact O5 | destruct P5 as [|[? _]]; auto |].
    eapply Hmono; [exact L4 | exact O4 | destruct P4 as [|[? _]]; auto |].
    eapply Hmono; [exact L3 | exact O3 | destruct P3 as [|[? _]]; auto |].
    eapply Hmono; [exact L2 | exact O2 | destruct P2 as [|[? _]]; auto |].
    eapply Hmono; [exact L1 | exact O1 | destruct P1 as [|[? _]]; auto |].
    exact Hn.
Qed.

(** Whatever the container held, a build that returns has read or set
    all six values, and the model is the Candidate Model of the
    configuration the container holds afterwards. *)
Lemma build_model_ok_inv inputs hp uid m bs :
  build_model inputs (mkBuild hp uid) = (Ok m, bs) ->
  exists c,
    config_of (bs_hp bs) = Some c
    /\ m = spec_model uid c inputs
    /\ bs_uid bs = Datatypes.S (uid + Z.to_nat (c_layers c))
    /\ inputs <> []
    /\ (forall n v, values hp !! n = Some v ->
                    values (bs_hp bs) !! n = Some v).
Proof.
  unfold build_model. intros H.
  rewrite (run_bind (S:=BuildState)) in H.
  destruct inputs as [|p inputs]; [discriminate|].
  cbn [Tf.stack lift map] in H.
  build_step H h bs5 Eh.
  destruct bs5 as [hp5 uid5].
  apply get_hidden_ok_inv in Eh
    as (l & u & d & a & r & vl & vu & vd & va & vr
        & Hl & Cl & Hu & Cu & Hd & Cd & Ha & Ca & Hr & Cr & Hh & Huid & Hmono
        & _ & _).
  cbn [bs_hp bs_uid] in *.
  rewrite (run_bind_ok _ _ _ _ _ (with_keras_dense _ _ _ _ _ _ _)) in H.
  unfold hp_float, Kt.Float in H.
  build_step H lr bs6 Elr.
  apply hp_read_inv in Elr as (vlr & Rlr & Clr & Ulr).
  apply retrieve_ok_inv in Rlr as (Llr & Olr & Plr).
  cbn [hp_name bs_hp bs_uid mret M_ret] in *.
  injection H as <- <-.
  exists (mkConfig l u d a r lr).
  split; [|split; [|split; [|split]]].
  - unfold config_of.
    rewrite (Olr "layers"), (Olr "first_layer_units"), (Olr "dropout"),
      (Olr "activation"), (Olr "regularization") by discriminate.
    rewrite Hl, Hu, Hd, Ha, Hr, Llr. cbn.
    rewrite Cl, Cu, Cd, Ca, Cr, Clr. reflexivity.
  - unfold spec_model. cbn [c_layers c_lr]. rewrite (Hh lr), Huid.
    reflexivity.
  - cbn [c_layers]. rewrite Ulr, Huid. reflexivity.
  - discriminate.
  - intros n v Hn. apply Hmono in Hn.
    destruct (decide (n = "lr")) as [->|Hne].
    + destruct Plr as [Hp|[Hp _]]; congruence.
    + rewrite Olr by assumption. assumption.
Qed.

(** A dimension the container had no value for has its declared
    default after a build that returns. *)
Lemma build_model_fills_defaults inputs hp uid m bs :
  build_model inputs (mkBuild hp uid) = (Ok m, bs) ->
  Forall (fun d => values hp !! hp_name d = None ->
                   exists v, hp_default d = Ok v
                             /\ values (bs_hp bs) !! hp_name d = Some v)
         spec_search_space.
Proof.
  unfold build_model. intros H.
  rewrite (run_bind (S:=BuildState)) in H.
  destruct inputs as [|p inputs]; [discriminate|].
  cbn [Tf.stack lift map] in H.
  build_step H h bs5 Eh.
  destruct bs5 as [hp5 uid5].
  apply get_hidden_ok_inv in Eh
    as (l & u & d & a & r & vl & vu & vd & va & vr
        & _ & _ & _ & _ & _ & _ & _ & _ & _ & _ & _ & _ & _ & Hdef & Hframe).
  cbn [bs_hp bs_uid] in *.
  rewrite (run_bind_ok _ _ _ _ _ (with_keras_dense _ _ _ _ _ _ _)) in H.
  unfold hp_float, Kt.Float in H.
  build_step H lr bs6 Elr.
  apply hp_read_inv in Elr as (vlr & Rlr & Clr & Ulr).
  apply retrieve_ok_inv in Rlr as (Llr & Olr & Plr).
  cbn [hp_name bs_hp bs_uid mret M_ret] in *.
  injection H as _ <-.
  change spec_search_space
    with (take 5 spec_search_space ++ [HFloat "lr" 1e-5 1e-2 None Log]).
  apply Forall_app. split.
  - rewrite Forall_forall in Hdef |- *. intros d0 Hd0 Hnone.
    destruct (Hdef d0 Hd0 Hnone) as (v & Hv & Hl).
    exists v. split; [exact Hv|].
    destruct (decide (hp_name d0 = "lr")) as [Heq|Hne].
    + rewrite Heq in *. destruct Plr as [Hp|[Hp _]]; congruence.
    + rewrite Olr by assumption. exact Hl.
  - constructor; [|constructor]. cbn [hp_name]. intros Hnone.
    exists vlr. split; [|exact Llr].
    rewrite Hframe in Plr by (cbn; rewrite !not_elem_of_cons;
                              repeat split; try discriminate;
                              apply not_elem_of_nil).
    destruct Plr as [Hp|[_ Hp]]; [congruence | exact Hp].
Qed.

(** X1.  Whenever [build_model] returns, whatever the container held
    before — all six values, some of them, or none — the container holds
    afterwards a full configuration, keeps every value it had, and the
    model returned is the Candidate Model of that configuration built from
    [layers + 1] fresh dense layers.  Building again from the container as
    it was left gives the same architecture on the next fresh layers and
    leaves the values as they are. *)
Theorem build_model_returns_configured_model
        (inputs : list (string * Tensor)) (hp : HyperParameters) (uid : nat)
        (m : Model) (bs : BuildState) :
  build_model inputs (mkBuild hp uid) = (Ok m, bs) ->
  exists c,
    config_of (bs_hp bs) = Some c
    /\ m = spec_model uid c inputs
    /\ bs_uid bs = Datatypes.S (uid + Z.to_nat (c_layers c))
    /\ (forall n v, values hp !! n = Some v ->
                    values (bs_hp bs) !! n = Some v)
    /\ exists bs2,
         build_model inputs bs
         = (Ok (spec_model (bs_uid bs) c inputs), bs2)
         /\ values (bs_hp bs2) = values (bs_hp bs)
         /\ bs_uid bs2 = Datatypes.S (bs_uid bs + Z.to_nat (c_layers c)).
Proof.
  intros H.
  destruct (build_model_ok_inv _ _ _ _ _ H) as (c & Hc & Hm & Hu & Hne & Hmono).
  exists c. repeat (split; [assumption|]).
  destruct bs as [[sp vals] uid'].
  destruct (build_model_config c inputs sp vals uid' Hne Hc) as [sp' Hb].
  eexists. split; [exact Hb|]. split; reflexivity.
Qed.

Lemma build_model_returns_configured_model_witness :
  exists c,
    config_of (bs_hp (build_model sample_inputs (mkBuild Kt.empty 0)).2)
    = Some c
    /\ (build_model sample_inputs (mkBuild Kt.empty 0)).1
       = Ok (spec_model 0 c sample_inputs)
    /\ c = mkConfig 1 32 0.0 "relu" "l1" 1e-5.
Proof.
  destruct (build_model sample_inputs (mkBuild Kt.empty 0))
    as [[m|e] bs] eqn:Hb; [|vm_compute in Hb; discriminate].
  destruct (build_model_returns_configured_model _ _ _ _ _ Hb)
    as (c & Hc & Hm & _).
  exists c. split; [exact Hc|]. split; [cbn [fst]; congruence|].
  vm_compute in Hb. injection Hb as _ <-.
  vm_compute in Hc. injection Hc as <-. reflexivity.
Defined.

(** X2.  Whenever [build_model] returns on a feature set, for a
    configuration inside the declared domains or not, the model has
    [max layers 0] hidden dense layers before the sigmoid unit, and hidden
    layer [i] was asked for [first_layer_units `div` 2^(i-1)] units with
    Python's floor division, as the repeated [units //= 2] leaves it.
    The loop keeps no lower bound: layer [i] has at least one unit
    exactly when [2^(i-1) <= first_layer_units].  With [layers <= 0] the
    sigmoid unit sits directly on the stacked inputs. *)
Theorem hidden_widths_halve_without_bound
        (inputs : list (string * Tensor)) (hp : HyperParameters) (uid : nat)
        (m : Model) (bs : BuildState) :
  feature_set inputs = true ->
  build_model inputs (mkBuild hp uid) = (Ok m, bs) ->
  exists c,
    config_of (bs_hp bs) = Some c
    /\ map d_units (dense_layers (outputs m))
       = map (fun i : nat => c_first_layer_units c `div` 2 ^ (Z.of_nat i - 1))
             (seq 1 (Z.to_nat (c_layers c)))
         ++ [1]
    /\ (c_layers c <= 0 ->
        outputs m
        = Dense uid 1 (Some "sigmoid") None None (Stack (map snd inputs)))
    /\ (forall (i : nat) d,
          (1 <= i <= Z.to_nat (c_layers c))%nat ->
          dense_layers (outputs m) !! (i - 1)%nat = Some d ->
          (1 <= d_units d <-> 2 ^ (Z.of_nat i - 1) <= c_first_layer_units c)).
Proof.
  intros Hf Hb.
  destruct (build_model_ok_inv _ _ _ _ _ Hb) as (c & Hc & -> & _).
  exists c. split; [exact Hc|].
  rewrite dense_layers_spec_model by assumption.
  split; [|split].
  - rewrite map_app, map_map. reflexivity.
  - intros Hl. cbn [spec_model outputs]. unfold spec_hidden.
    replace (Z.to_nat (c_layers c)) with 0%nat by lia.
    cbn [seq foldl]. rewrite Nat.add_0_r. reflexivity.
  - intros i d Hi Hlook.
    rewrite lookup_app_l in Hlook by (rewrite length_map, length_seq; lia).
    rewrite list_lookup_fmap, lookup_seq_lt in Hlook by lia.
    cbn in Hlook. injection Hlook as <-. cbn [d_units].
    replace (Datatypes.S (i - 1)) with i in * by lia.
    replace (1 + (i - 1))%nat with i in * by lia. unfold spec_width.
    assert (0 < 2 ^ (Z.of_nat i - 1)) as Hpos
        by (apply Z.pow_pos_nonneg; lia).
    pose proof (Z.div_le_lower_bound (c_first_layer_units c)
                  (2 ^ (Z.of_nat i - 1)) 1 Hpos).
    pose proof (Z.div_lt_upper_bound (c_first_layer_units c)
                  (2 ^ (Z.of_nat i - 1)) 1 Hpos).
    lia.
Qed.

Lemma hidden_widths_halve_without_bound_witness :
  exists m,
    (build_model sample_inputs (mkBuild narrow_hp 0)).1 = Ok m
    /\ map d_units (dense_layers (outputs m)) = [6; 3; 1; 1].
Proof.
  destruct (build_model sample_inputs (mkBuild narrow_hp 0))
    as [[m|e] bs] eqn:Hb; [|vm_compute in Hb; discriminate].
  destruct (hidden_widths_halve_without_bound sample_inputs narrow_hp 0 m bs
              eq_refl Hb) as (c & Hc & Hw & _).
  exists m. split; [reflexivity|]. rewrite Hw.
  vm_compute in Hb. injection Hb as _ <-.
  vm_compute in Hc. injection Hc as <-. reflexivity.
Defined.

(** ** Runs of [train_model] that end early *)

Lemma run_search_phase lib train_ds valid_ds inputs cw d w :
  search_phase lib train_ds valid_ds inputs cw d w
  = match build_model inputs (mkBuild Kt.empty (keras_uid w)) with
    | (Raise e, bs) =>
        (Raise e,
         after (with_uid w (bs_uid bs))
               [ELog DEBUG (UsingTemporaryDirectory d)])
    | (Ok _, bs) =>
        let hb := spec_hyperband_args d in
        let args := spec_monitored_fit train_ds valid_ds cw in
        let w1 := after (with_uid w (bs_uid bs))
                        [ELog DEBUG (UsingTemporaryDirectory d);
                         ELog DEBUG StartingSearch; ESearch hb args] in
        match search_outcome lib (trace w1) hb args with
        | Raise e => (Raise e, w1)
        | Ok trials =>
            match unpack1 (get_best_hyperparameters
                             (mkObjective "val_auc" "max") trials 1) with
            | Raise e => (Raise e, w1)
            | Ok best =>
                (Ok (mkTuner hb (bs_hp bs) trials, spec_callbacks, best),
                 after w1 [ELog INFO (BestHyperparameters (values best))])
            end
        end
    end.
Proof.
  unfold search_phase, logger_debug, logger_info, Hyperband, tuner_search.
  rewrite (run_bind (S:=World)), run_emit; cbv beta iota.
  rewrite !(run_bind (S:=World)), run_run_build.
  unfold after at 1 2 3. cbn [keras_uid].
  destruct (build_model inputs _) as [[m0|e0] bs0]; cbn [fst snd];
    [|reflexivity].
  cbn [mret M_ret].
  rewrite (run_bind (S:=World)), run_emit; cbv beta iota.
  cbn [tuner_args tuner_space tuner_trials].
  rewrite (run_bind (S:=World)).
  rewrite (run_bind (S:=World)), run_emit; cbv beta iota.
  rewrite (run_bind (S:=World)), run_ask. cbv zeta.
  unfold after, with_uid. cbn [trace keras_uid live_dirs next_dir].
  rewrite <- !app_assoc. cbn [app].
  fold (spec_hyperband_args d). fold spec_callbacks.
  fold (spec_monitored_fit train_ds valid_ds cw).
  destruct (search_outcome lib _ _ _) as [trials|e0]; [|reflexivity].
  cbn [mret M_ret]. rewrite (run_bind (S:=World)), run_lift.
  unfold tuner_get_best_hyperparameters.
  cbn [tuner_args tuner_trials objective app spec_hyperband_args].
  destruct (unpack1 _) as [best|e0]; [|reflexivity].
  rewrite (run_bind (S:=World)), run_emit; cbv beta iota.
  cbn [mret M_ret]. unfold after. cbn [trace keras_uid live_dirs next_dir].
  rewrite <- !app_assoc. reflexivity.
Qed.

Lemma no_completed_trial (trials : list Trial) :
  Forall (fun t => status t <> COMPLETED) trials ->
  unpack1 (get_best_hyperparameters (mkObjective "val_auc" "max") trials 1)
  = Raise ValueError.
Proof.
  intros H. unfold get_best_hyperparameters, get_best_trials.
  assert (filter (fun t => is_completed (status t) = true) trials = []) as ->.
  { induction H as [|t l Ht _ IH]; [reflexivity|].
    rewrite filter_cons_False; [exact IH|].
    destruct (status t); simpl; congruence. }
  destruct (bool_decide _); reflexivity.
Qed.

Lemma train_model_leaves_scope lib train_ds valid_ds tv inputs cw w :
  is_ok (mkdtemp_outcome lib (trace w)) = true ->
  forall e w1,
    search_phase lib train_ds valid_ds inputs cw (next_dir w)
      (mkWorld (keras_uid w) (next_dir w :: live_dirs w)
               (Datatypes.S (next_dir w)) (trace w ++ [EMkdtemp (next_dir w)]))
    = (Raise e, w1) ->
    (train_model lib train_ds valid_ds tv inputs cw w).1 = Raise e
    /\ trace (train_model lib train_ds valid_ds tv inputs cw w).2
       = trace w1 ++ [ECleanup (next_dir w)].
Proof.
  intros Hmk e w1 Hs. unfold train_model.
  rewrite (run_bind (S:=World)), run_TemporaryDirectory.
  destruct (mkdtemp_outcome lib (trace w)) as [[]|e0]; [|discriminate].
  cbv zeta. rewrite Hs. split; reflexivity.
Qed.

(** X3.  When the workspace can be made but the search phase delivers no
    best configuration, [train_model] ends inside the [with] block: the
    workspace is removed and no model is fitted.  With no input feature
    the tuner's constructor fails, on [tf.stack] of an empty list, before
    any search is started.  With inputs, an exception of the search is
    the exception of [train_model], and a search none of whose trials
    completed makes the unpacking [(best_hps,) = ...] raise
    [ValueError]; in both cases the search is the last thing done before
    the removal. *)
Theorem failed_search_trains_nothing
        (lib : Library) (train_ds valid_ds tv : Dataset)
        (inputs : list (string * Tensor)) (cw : ClassWeight) (w : World) :
  is_ok (mkdtemp_outcome lib (trace w)) = true ->
  let d := next_dir w in
  let hb := mkHyperband (mkObjective "val_auc" "max") 10 3 None d
                        "playground" in
  let args := mkFit train_ds (Some valid_ds) 10 1 cw
                [ReduceLROnPlateau "val_loss" 0.1 1 1;
                 EarlyStopping "val_loss" 3 1 true] in
  let started := trace w ++ [EMkdtemp d;
                             ELog DEBUG (UsingTemporaryDirectory d);
                             ELog DEBUG StartingSearch; ESearch hb args] in
  let run := train_model lib train_ds valid_ds tv inputs cw w in
  (inputs = [] ->
   is_ok run.1 = false
   /\ trace run.2 = trace w ++ [EMkdtemp d;
                                ELog DEBUG (UsingTemporaryDirectory d);
                                ECleanup d])
  /\ (inputs <> [] ->
      (forall e,
          search_outcome lib started hb args = Raise e ->
          run.1 = Raise e /\ trace run.2 = started ++ [ECleanup d])
      /\ (forall trials,
             search_outcome lib started hb args = Ok trials ->
             Forall (fun t => status t <> COMPLETED) trials ->
             run.1 = Raise ValueError
             /\ trace run.2 = started ++ [ECleanup d])).
Proof.
  intros Hmk d hb args started run.
  pose proof (train_model_leaves_scope lib train_ds valid_ds tv inputs cw w
                Hmk) as Hleave.
  fold d in Hleave. rewrite run_search_phase in Hleave.
  cbn [keras_uid] in Hleave. fold run in Hleave.
  split.
  - intros ->. destruct (Hleave _ _ eq_refl) as [-> ->].
    cbn. rewrite <- !app_assoc. split; reflexivity.
  - intros Hne. destruct inputs as [|p inputs]; [congruence|].
    destruct (build_on_empty p inputs (keras_uid w)) as (Hok & _ & _).
    destruct (build_model (p :: inputs) _) as [[m0|e0] bs0];
      [|discriminate Hok].
    cbv zeta in Hleave.
    unfold after, with_uid in Hleave.
    cbn [trace keras_uid live_dirs next_dir] in Hleave.
    rewrite <- !app_assoc in Hleave. cbn [app] in Hleave.
    change (spec_hyperband_args d) with hb in Hleave.
    change (spec_monitored_fit train_ds valid_ds cw) with args in Hleave.
    fold started in Hleave.
    split.
    + intros e He. rewrite He in Hleave.
      destruct (Hleave _ _ eq_refl) as [-> ->]. split; reflexivity.
    + intros trials Ht Hnone. rewrite Ht in Hleave.
      rewrite (no_completed_trial trials Hnone) in Hleave.
      destruct (Hleave _ _ eq_refl) as [-> ->]. split; reflexivity.
Qed.

Lemma failed_search_trains_nothing_witness :
  let run := train_model fruitless_library sample_train_ds sample_valid_ds
               sample_train_and_valid_ds sample_inputs sample_class_weight
               initial_world in
  run.1 = Raise ValueError
  /\ trace run.2
     = [EMkdtemp 0; ELog DEBUG (UsingTemporaryDirectory 0);
        ELog DEBUG StartingSearch;
        ESearch (spec_hyperband_args 0)
                (spec_monitored_fit sample_train_ds sample_valid_ds
                                    sample_class_weight);
        ECleanup 0].
Proof.
  destruct (failed_search_trains_nothing fruitless_library sample_train_ds
              sample_valid_ds sample_train_and_valid_ds sample_inputs
              sample_class_weight initial_world eq_refl) as [_ H].
  destruct (H ltac:(discriminate)) as [_ Hnone].
  apply (Hnone [mkTrial sample_hp FAILED 0.0; mkTrial other_hp RUNNING 0.0]).
  - reflexivity.
  - repeat constructor; discriminate.
Defined.

Lemma run_retrain_and_select lib train_ds valid_ds inputs cw cbs hps w :
  retrain_and_select lib train_ds valid_ds inputs cw cbs hps w
  = match build_model inputs (mkBuild hps (keras_uid w)) with
    | (Raise e, bs) => (Raise e, with_uid w (bs_uid bs))
    | (Ok model, bs) =>
        let args := mkFit train_ds (Some valid_ds) 10 1 cw cbs in
        let w1 := after (with_uid w (bs_uid bs)) [EFit model args] in
        match fit_outcome lib (trace w1) model args with
        | Raise e => (Raise e, w1)
        | Ok history =>
            match history !! "val_auc" with
            | None => (Raise (KeyError "val_auc"), w1)
            | Some curve =>
                match select_best_epoch curve with
                | Raise e => (Raise e, w1)
                | Ok e =>
                    (Ok (e, bs_hp bs), after w1 [ELog INFO (BestEpoch e)])
                end
            end
        end
    end.
Proof.
  unfold retrain_and_select, logger_info.
  rewrite (run_bind (S:=World)), run_run_build.
  destruct (build_model inputs _) as [[model|e0] bs]; cbn [fst snd];
    [|reflexivity].
  rewrite (run_bind (S:=World)), run_model_fit. cbv zeta.
  unfold after at 3. cbn [trace with_uid].
  destruct (fit_outcome _ _ _ _) as [history|e0]; [|reflexivity].
  rewrite (run_bind (S:=World)), run_lift. unfold getitem.
  destruct (history !! "val_auc") as [curve|]; cbv beta iota; [|reflexivity].
  rewrite (run_bind (S:=World)), run_lift.
  destruct (select_best_epoch curve) as [e1|e0]; [|reflexivity].
  rewrite (run_bind (S:=World)), run_emit. reflexivity.
Qed.

Lemma train_model_retrain_raises lib train_ds valid_ds tv inputs cw w
      tuner cbs best w1 e w2 :
  TemporaryDirectory lib (search_phase lib train_ds valid_ds inputs cw) w
  = (Ok (tuner, cbs, best), w1) ->
  retrain_and_select lib train_ds valid_ds inputs cw cbs best w1
  = (Raise e, w2) ->
  train_model lib train_ds valid_ds tv inputs cw w = (Raise e, w2).
Proof.
  intros Hs Hr. unfold train_model.
  rewrite (run_bind (S:=World)), Hs. cbv beta iota.
  rewrite (run_bind (S:=World)), Hr. reflexivity.
Qed.

Lemma select_best_epoch_empty : select_best_epoch [] = Raise ValueError.
Proof. reflexivity. Qed.

(** X4.  After a search that delivered a best configuration from which a
    model can be built, [train_model] fits that model once with the
    search's arguments, and ends there, without logging a best epoch and
    without building or fitting any ensemble member, in three cases: the
    fit raises, and its exception is the exception of [train_model]; the
    history has no entry [val_auc], and [history.history["val_auc"]]
    raises [KeyError]; the recorded curve is empty, and [np.argmax]
    raises [ValueError]. *)
Theorem failed_retrain_trains_no_member
        (lib : Library) (train_ds valid_ds tv : Dataset)
        (inputs : list (string * Tensor)) (cw : ClassWeight) (w : World)
        (tuner : Tuner) (cbs : list Callback) (best : HyperParameters)
        (w1 : World) (model : Model) (bs : BuildState) :
  TemporaryDirectory lib (search_phase lib train_ds valid_ds inputs cw) w
  = (Ok (tuner, cbs, best), w1) ->
  build_model inputs (mkBuild best (keras_uid w1)) = (Ok model, bs) ->
  let args := mkFit train_ds (Some valid_ds) 10 1 cw
                [ReduceLROnPlateau "val_loss" 0.1 1 1;
                 EarlyStopping "val_loss" 3 1 true] in
  let fitted := trace w1 ++ [EFit model args] in
  let run := train_model lib train_ds valid_ds tv inputs cw w in
  (forall e,
      fit_outcome lib fitted model args = Raise e ->
      run.1 = Raise e /\ trace run.2 = fitted)
  /\ (forall history,
         fit_outcome lib fitted model args = Ok history ->
         history !! "val_auc" = None ->
         run.1 = Raise (KeyError "val_auc") /\ trace run.2 = fitted)
  /\ (forall history,
         fit_outcome lib fitted model args = Ok history ->
         history !! "val_auc" = Some [] ->
         run.1 = Raise ValueError /\ trace run.2 = fitted).
Proof.
  intros Hs Hb args fitted run.
  assert (cbs = spec_callbacks) as ->.
  { rewrite run_TemporaryDirectory in Hs.
    destruct (mkdtemp_outcome lib (trace w)) as [[]|e0]; [|discriminate].
    cbv zeta in Hs.
    pose proof (search_phase_appends lib train_ds valid_ds inputs cw
                  (next_dir w)
                  (mkWorld (keras_uid w) (next_dir w :: live_dirs w)
                           (Datatypes.S (next_dir w))
                           (trace w ++ [EMkdtemp (next_dir w)])))
      as (_ & _ & _ & HQ).
    destruct (search_phase lib train_ds valid_ds inputs cw (next_dir w) _)
      as [[[[tuner' cbs'] best']|e0] w1']; cbn [fst snd] in *;
      [|discriminate].
    injection Hs as _ <- _ _. destruct (HQ _ eq_refl) as [_ ->].
    reflexivity. }
  pose proof (run_retrain_and_select lib train_ds valid_ds inputs cw
                spec_callbacks best w1) as Hr.
  rewrite Hb in Hr. cbv zeta in Hr.
  unfold after at 1 2 3 4, with_uid in Hr. cbn [trace] in Hr.
  change (mkFit train_ds (Some valid_ds) 10 1 cw spec_callbacks) with args
    in Hr.
  fold fitted in Hr.
  split; [|split].
  - intros e He. rewrite He in Hr.
    subst run.
    rewrite (train_model_retrain_raises _ _ _ tv _ _ _ _ _ _ _ _ _ Hs Hr).
    split; reflexivity.
  - intros history Hh Hnone. rewrite Hh, Hnone in Hr.
    subst run.
    rewrite (train_model_retrain_raises _ _ _ tv _ _ _ _ _ _ _ _ _ Hs Hr).
    split; reflexivity.
  - intros history Hh Hempty. rewrite Hh, Hempty in Hr.
    rewrite select_best_epoch_empty in Hr.
    subst run.
    rewrite (train_model_retrain_raises _ _ _ tv _ _ _ _ _ _ _ _ _ Hs Hr).
    split; reflexivity.
Qed.

Lemma failed_retrain_trains_no_member_witness :
  (train_model unmonitored_library sample_train_ds sample_valid_ds
     sample_train_and_valid_ds sample_inputs sample_class_weight
     initial_world).1
  = Raise (KeyError "val_auc").
Proof.
  eapply (failed_retrain_trains_no_member unmonitored_library sample_train_ds
            sample_valid_ds sample_train_and_valid_ds sample_inputs
            sample_class_weight initial_world).
  - vm_compute. reflexivity.
  - vm_compute. reflexivity.
  - reflexivity.
  - reflexivity.
Defined.

(** ** The model a successful run returns *)

Lemma build_model_at_config inputs hp uid c m bs :
  inputs <> [] ->
  config_of hp = Some c ->
  build_model inputs (mkBuild hp uid) = (Ok m, bs) ->
  m = spec_model uid c inputs
  /\ config_of (bs_hp bs) = Some c
  /\ bs_uid bs = Datatypes.S (uid + Z.to_nat (c_layers c)).
Proof.
  intros Hne Hc Hb. destruct hp as [sp vals].
  destruct (build_model_config c inputs sp vals uid Hne Hc) as [sp' Hb'].
  rewrite Hb' in Hb. injection Hb as <- <-. auto.
Qed.

Lemma Rsum_bounds (a b : R) (ps : list R) :
  Forall (fun p => (a <= p <= b)%R) ps ->
  (INR (length ps) * a <= Rsum ps <= INR (length ps) * b)%R.
Proof.
  induction 1 as [|p ps Hp _ IH].
  - simpl. lra.
  - change (length (p :: ps)) with (Datatypes.S (length ps)).
    rewrite S_INR. cbn [Rsum]. lra.
Qed.

Lemma mean_bounds (a b : R) (ps : list R) :
  ps <> [] ->
  Forall (fun p => (a <= p <= b)%R) ps ->
  (a <= Rsum ps / INR (length ps) <= b)%R.
Proof.
  intros Hne H. pose proof (Rsum_bounds a b ps H) as [Hlo Hhi].
  assert (0 < INR (length ps))%R as Hn.
  { destruct ps; [congruence|]. apply lt_0_INR. simpl. lia. }
  split.
  - apply Rmult_le_reg_r with (INR (length ps)); [assumption|].
    unfold Rdiv. rewrite Rmult_assoc, Rinv_l by lra. lra.
  - apply Rmult_le_reg_r with (INR (length ps)); [assumption|].
    unfold Rdiv. rewrite Rmult_assoc, Rinv_l by lra. lra.
Qed.

Lemma call_mean_of_members θ feed ins (models : list Model) (ps : list R) cmp :
  models <> [] ->
  Forall2 (fun m p => call θ m feed = Some (Vector [p])) models ps ->
  call θ (mkModel ins (ReduceMean (Concatenate (map outputs models))) cmp) feed
  = Some (Vector [(Rsum ps / INR (length ps))%R]).
Proof.
  intros Hne Hps. unfold call. cbn [outputs eval].
  assert (mapM (fun t' => eval θ feed t' ≫= vector_of) (map outputs models)
          = Some (map (fun p => [p]) ps)) as ->.
  { clear Hne. induction Hps as [|m p ms ps' Hm _ IH]; [reflexivity|].
    cbn [map mapM]. unfold call in Hm. rewrite Hm. cbn.
    rewrite IH. reflexivity. }
  cbn.
  assert (concat (map (fun p => [p]) ps) = ps) as ->.
  { clear. induction ps as [|p ps IH]; [reflexivity|].
    simpl. rewrite IH. reflexivity. }
  inversion Hps; subst; [congruence|]. reflexivity.
Qed.

Lemma Ok_inj {A} (a b : A) : Ok a = Ok b -> a = b.
Proof. congruence. Qed.

Lemma wrap_ensemble_three ins (a b c : Model) :
  wrap_ensemble ins [a; b; c]
  = Ok (mkModel ins
          (ReduceMean (Concatenate [outputs a; outputs b; outputs c]))
          (mkCompiled DefaultOptimizer "binary_crossentropy"
             ["accuracy"; "auc"])).
Proof. reflexivity. Qed.

Lemma dense_layers_ensemble ins (a b c : Model) cmp :
  dense_layers
    (outputs (mkModel ins
                (ReduceMean (Concatenate [outputs a; outputs b; outputs c]))
                cmp))
  = dense_layers (outputs a) ++ dense_layers (outputs b)
    ++ dense_layers (outputs c).
Proof. cbn [outputs dense_layers map concat]. rewrite app_nil_r. reflexivity. Qed.

(** X5.  Every model that [train_model] returns, on a feature set and
    for every behaviour of the libraries, is the mean of three Candidate
    Models of one configuration: the best hyperparameters the run
    logged, completed by the defaults of the dimensions they lack.  The
    model fitted to find the best epoch has the same configuration but
    is not part of the ensemble: the four models are built one after the
    other from layers of their own, after the two layers of the model
    the tuner's constructor built.  The ensemble takes the given inputs,
    is compiled with the default optimizer, and, when the activation is
    one Keras knows, outputs one number between 0 and 1. *)
Theorem returned_ensemble_of_logged_best
        (lib : Library) (train_ds valid_ds tv : Dataset)
        (inputs : list (string * Tensor)) (cw : ClassWeight) (w : World)
        (ens : Model) (w' : World) :
  feature_set inputs = true ->
  train_model lib train_ds valid_ds tv inputs cw w = (Ok ens, w') ->
  exists best hp c e,
    let n := Datatypes.S (Z.to_nat (c_layers c)) in
    let u := (keras_uid w + 2)%nat in
    let m0 := spec_model u c inputs in
    let m1 := spec_model (u + n) c inputs in
    let m2 := spec_model (u + 2 * n) c inputs in
    let m3 := spec_model (u + 3 * n) c inputs in
    ELog INFO (BestHyperparameters (values best)) ∈ trace w'
    /\ (forall k v, values best !! k = Some v -> values hp !! k = Some v)
    /\ config_of hp = Some c
    /\ Forall (fun d => values best !! hp_name d = None ->
                        exists v, hp_default d = Ok v
                                  /\ values hp !! hp_name d = Some v)
              spec_search_space
    /\ EFit m0 (mkFit train_ds (Some valid_ds) 10 1 cw
                  [ReduceLROnPlateau "val_loss" 0.1 1 1;
                   EarlyStopping "val_loss" 3 1 true]) ∈ trace w'
    /\ Forall (fun m => EFit m (mkFit tv None e 1 cw []) ∈ trace w')
              [m1; m2; m3]
    /\ ens = mkModel inputs
               (ReduceMean (Concatenate [outputs m1; outputs m2; outputs m3]))
               (mkCompiled DefaultOptimizer "binary_crossentropy"
                  ["accuracy"; "auc"])
    /\ map d_uid (dense_layers (outputs m0) ++ dense_layers (outputs ens))
       = seq u (4 * n)
    /\ keras_uid w' = (u + 4 * n)%nat
    /\ (In (c_activation c) ["relu"; "tanh"; "sigmoid"; "elu"; "selu"] ->
        forall θ feed,
        exists p, call θ ens feed = Some (Vector [p]) /\ (0 <= p <= 1)%R).
Proof.
  intros Hf H. pose proof (feature_set_nonempty _ Hf) as Hne.
  destruct (train_model_ok _ _ _ _ _ _ _ _ _ H)
    as (tuner & best & w1 & e & hps2 & w2 & ms & w3
        & Hs & Hr & He & Hwrap & ->).
  apply search_phase_ok in Hs
    as (mi & bsi & trials & Hbi & _ & _ & _ & _ & Hw1).
  cbn [keras_uid] in Hbi.
  assert (bs_uid bsi = (keras_uid w + 2)%nat) as Hui.
  { destruct inputs as [|p inputs]; [congruence|].
    destruct (build_on_empty p inputs (keras_uid w)) as (_ & _ & Hu).
    rewrite Hbi in Hu. cbn [snd] in Hu. rewrite Hu. lia. }
  apply retrain_and_select_ok in Hr
    as (m0 & bs0 & history & curve & Hb0 & -> & _ & _ & _ & Hw2).
  rewrite Hw1 in Hb0. cbn [keras_uid after with_uid] in Hb0.
  rewrite Hui in Hb0.
  pose proof (build_model_fills_defaults _ _ _ _ _ Hb0) as Hdef.
  destruct (build_model_ok_inv _ _ _ _ _ Hb0) as (c & Hc & -> & Hu0 & _ & Hmono).
  apply train_ensemble_ok in He
    as (m1 & bs1 & m2 & bs2 & m3 & bs3 & Hb1 & Hb2 & Hb3 & -> & _ & _ & _
        & Hw3).
  rewrite Hw2 in Hb1. cbn [keras_uid after with_uid] in Hb1.
  destruct (build_model_at_config _ _ _ _ _ _ Hne Hc Hb1) as (-> & Hc1 & Hu1).
  destruct (build_model_at_config _ _ _ _ _ _ Hne Hc1 Hb2) as (-> & Hc2 & Hu2).
  destruct (build_model_at_config _ _ _ _ _ _ Hne Hc2 Hb3) as (-> & Hc3 & Hu3).
  exists best, (bs_hp bs0), c, e. cbv zeta.
  set (L := Z.to_nat (c_layers c)) in *.
  replace (bs_uid bs0) with (keras_uid w + 2 + Datatypes.S L)%nat in *by lia.
  replace (bs_uid bs1) with (keras_uid w + 2 + 2 * Datatypes.S L)%nat in *
    by lia.
  replace (bs_uid bs2) with (keras_uid w + 2 + 3 * Datatypes.S L)%nat in *
    by lia.
  assert (trace (after w3 [ELog DEBUG WrappingEnsemble; ELog INFO ModelTrained])
          = trace w
            ++ [EMkdtemp (next_dir w);
                ELog DEBUG (UsingTemporaryDirectory (next_dir w));
                ELog DEBUG StartingSearch;
                ESearch (spec_hyperband_args (next_dir w))
                        (spec_monitored_fit train_ds valid_ds cw);
                ELog INFO (BestHyperparameters (values best));
                ECleanup (next_dir w);
                EFit (spec_model (keras_uid w + 2) c inputs)
                     (spec_monitored_fit train_ds valid_ds cw);
                ELog INFO (BestEpoch e);
                ELog INFO (TrainingHypermodel 1);
                EFit (spec_model (keras_uid w + 2 + Datatypes.S L) c inputs)
                     (spec_member_fit tv cw e);
                ELog INFO (TrainingHypermodel 2);
                EFit (spec_model (keras_uid w + 2 + 2 * Datatypes.S L) c inputs)
                     (spec_member_fit tv cw e);
                ELog INFO (TrainingHypermodel 3);
                EFit (spec_model (keras_uid w + 2 + 3 * Datatypes.S L) c inputs)
                     (spec_member_fit tv cw e);
                ELog DEBUG WrappingEnsemble;
                ELog INFO ModelTrained]) as Htrace.
  { subst w3 w2 w1. unfold after, with_uid, spec_monitored_fit. cbn [trace].
    rewrite <- !app_assoc. reflexivity. }
  rewrite Htrace. clear Htrace.
  unfold spec_monitored_fit, spec_member_fit, spec_callbacks.
  split.
  { apply elem_of_app. right. repeat first [left; reflexivity | right]. }
  split; [exact Hmono|]. split; [exact Hc|]. split; [exact Hdef|].
  split.
  { apply elem_of_app. right. repeat first [left; reflexivity | right]. }
  split.
  { repeat constructor; apply elem_of_app; right;
      repeat first [left; reflexivity | right]. }
  rewrite wrap_ensemble_three in Hwrap. apply Ok_inj in Hwrap. subst ens.
  split; [reflexivity|].
  split.
  { rewrite dense_layers_ensemble, !map_app.
    rewrite !dense_uids_spec_model by assumption. fold L.
    set (n := Datatypes.S L).
    replace (keras_uid w + 2 + 3 * n)%nat
      with (keras_uid w + 2 + n + n + n)%nat by lia.
    replace (keras_uid w + 2 + 2 * n)%nat
      with (keras_uid w + 2 + n + n)%nat by lia.
    rewrite <- !seq_app. f_equal. lia. }
  split.
  { subst w3. cbn [keras_uid after with_uid]. lia. }
  intros Ha θ feed.
  destruct (call_spec_model θ feed c (keras_uid w + 2 + Datatypes.S L) inputs
              Hf Ha) as (p1 & Hp1 & Hr1).
  destruct (call_spec_model θ feed c (keras_uid w + 2 + 2 * Datatypes.S L)
              inputs Hf Ha) as (p2 & Hp2 & Hr2).
  destruct (call_spec_model θ feed c (keras_uid w + 2 + 3 * Datatypes.S L)
              inputs Hf Ha) as (p3 & Hp3 & Hr3).
  eexists. split.
  - apply (call_mean_of_members θ feed inputs
             [spec_model (keras_uid w + 2 + Datatypes.S L) c inputs;
              spec_model (keras_uid w + 2 + 2 * Datatypes.S L) c inputs;
              spec_model (keras_uid w + 2 + 3 * Datatypes.S L) c inputs]
             [p1; p2; p3]); [discriminate|].
    repeat constructor; assumption.
  - apply mean_bounds; [discriminate|].
    repeat (constructor; [assumption|]). constructor.
Qed.

Lemma returned_ensemble_of_logged_best_witness :
  exists ens,
    (train_model sample_library sample_train_ds sample_valid_ds
       sample_train_and_valid_ds sample_inputs sample_class_weight
       initial_world).1 = Ok ens
    /\ map d_uid (dense_layers (outputs ens)) = [4; 5; 6; 7; 8; 9]%nat.
Proof.
  destruct (train_model sample_library sample_train_ds sample_valid_ds
              sample_train_and_valid_ds sample_inputs sample_class_weight
              initial_world) as [[ens|ex] w'] eqn:Hrun;
    [|vm_compute in Hrun; discriminate].
  destruct (returned_ensemble_of_logged_best sample_library sample_train_ds
              sample_valid_ds sample_train_and_valid_ds sample_inputs
              sample_class_weight initial_world ens w' eq_refl Hrun)
    as (best & hp & c & e & _ & _ & _ & _ & _ & _ & Hens & _).
  exists ens. split; [reflexivity|].
  vm_compute in Hrun. injection Hrun as <- _. reflexivity.
Defined.
